(** * Refond backend: taxpayer registry, authorization and audit trail

    A shallow embedding of the service layer of the backend
    ([api/v1/services], [api/v1/routes], [api/v1/models],
    [api/v1/schemas]) and the properties of its access-control,
    transaction and audit behaviour.

    The SQLAlchemy session is modelled by explicit state passing: a
    session holds the durable store (what is committed), the working store
    (the durable store plus the changes of the open transaction), a commit
    counter, the supply of fresh identifiers and the plain attributes of
    the objects built in it.  Python exceptions are the [Raise] outcome of
    a small state-and-exception monad. *)

From Stdlib Require Import ZArith NArith List String Ascii Bool Lia.
From stdpp Require Import base option list strings gmap pretty.

Set Warnings "-register-all".
Local Open Scope string_scope.
Local Open Scope list_scope.

(** ** Enumerations ([api/v1/models/user.py], [api/v1/models/taxpayer.py]) *)

Inductive UserRole := ADMIN | ACCOUNTANT | EMPLOYER | ORGANIZATION.

(** [UserRole.value]: the role checks of the services compare this string. *)
Definition role_value (r : UserRole) : string :=
  match r with
  | ADMIN => "ADMIN"
  | ACCOUNTANT => "ACCOUNTANT"
  | EMPLOYER => "EMPLOYER"
  | ORGANIZATION => "ORGANIZATION"
  end.

Inductive TaxType := PAYE | VAT | CIT | WHT | PIT.

Inductive TaxpayerStatus :=
  ACTIVE | INACTIVE | PENDING | SUSPENDED | DELETED.

Definition status_value (s : TaxpayerStatus) : string :=
  match s with
  | ACTIVE => "active"
  | INACTIVE => "inactive"
  | PENDING => "pending"
  | SUSPENDED => "suspended"
  | DELETED => "deleted"
  end.

(** [NigerianState] is a [str] enumeration of 37 region names; a member is
    represented by its value. *)
Definition NigerianState := string.

#[global] Instance UserRole_eq_dec : EqDecision UserRole.
Proof. solve_decision. Defined.
#[global] Instance TaxType_eq_dec : EqDecision TaxType.
Proof. solve_decision. Defined.
#[global] Instance TaxpayerStatus_eq_dec : EqDecision TaxpayerStatus.
Proof. solve_decision. Defined.

(** ** Values *)

(** A [uuid.UUID].  Identifiers are numbers here; [str_uuid] stands for
    Python's [str()] on them. *)
Definition UUID := N.
Definition str_uuid (u : UUID) : string := pretty u.

(** Dates and timestamps, as numbers of days and of seconds. *)
Definition date := Z.
Definition datetime := Z.

(** The values of the free-form maps ([Dict[str, Any]]). *)
Inductive Json :=
| JNull
| JBool (b : bool)
| JNum (z : Z)
| JStr (s : string)
| JList (l : list Json)
| JDict (l : list (string * Json)).

(** Python truthiness of the values the services test with [if x:]. *)
Definition truthy_str (o : option string) : bool :=
  match o with
  | Some s => negb (String.eqb s "")
  | None => false
  end.

Definition truthy_opt {A} (o : option A) : bool :=
  match o with Some _ => true | None => false end.

Definition truthy_dict (o : option (gmap string Json)) : bool :=
  match o with
  | Some m => negb (bool_decide (m = ∅))
  | None => false
  end.

(** [x in xs] on strings. *)
Definition str_in (x : string) (xs : list string) : bool :=
  existsb (String.eqb x) xs.

(** ** Records ([api/v1/models], [api/v1/schemas/taxpayer.py]) *)

Record User := {
  user_id : UUID;
  user_name : string;
  user_email : string;
  password_hash : string;
  role : UserRole;
  organization_id : option UUID;
  is_active : bool;
  user_is_verified : bool
}.

Record Organization := {
  org_id : UUID;
  org_name : string
}.

(** [TaxpayerBase]: the fields shared by the create schema, the response
    schema and the [Taxpayer] row. *)
Record TaxpayerBase := {
  full_name : string;
  tin : option string;
  bvn : option string;
  nin : option string;
  email : option string;
  phone_number : option string;
  address : option string;
  city : option string;
  state : NigerianState;
  tax_type : TaxType;
  business_name : option string;
  rc_number : option string;
  business_type : option string;
  industry : option string;
  employment_status : option string;
  job_title : option string;
  employment_date : option date;
  metadata : option (gmap string Json)
}.

(** [TaxpayerCreate(TaxpayerBase)] adds the employer reference. *)
Record TaxpayerCreate := {
  create_base : TaxpayerBase;
  create_employer_id : option UUID
}.

(** A [Taxpayer] row: the columns the services read and write.  The
    columns that [TaxpayerBase] names are kept together in [base]; its
    field [metadata] is no column of the table and is [None] in every row
    the services write.  The column [extra_data] is never read or written
    by the services and is left out. *)
Record Taxpayer := {
  id : UUID;
  base : TaxpayerBase;
  employer_id : option UUID;
  status : option TaxpayerStatus;
  is_verified : bool;
  verification_date : option date;
  last_filing_date : option date;
  created_by : option UUID;
  updated_by : option UUID;
  created_at : datetime;
  updated_at : option datetime
}.

(** [TaxpayerUpdate]: every field is optional, and [model_dump(exclude_unset
    =True)] keeps only the fields the caller sent.  [None] is a field that
    was not sent, [Some None] a field sent as null. *)
Record TaxpayerUpdate := {
  upd_full_name : option (option string);
  upd_email : option (option string);
  upd_phone_number : option (option string);
  upd_address : option (option string);
  upd_city : option (option string);
  upd_state : option (option NigerianState);
  upd_business_name : option (option string);
  upd_rc_number : option (option string);
  upd_business_type : option (option string);
  upd_industry : option (option string);
  upd_employment_status : option (option string);
  upd_job_title : option (option string);
  upd_employment_date : option (option date);
  upd_status : option (option TaxpayerStatus);
  upd_metadata : option (option (gmap string Json))
}.

(** The snapshot [original_data] that [update] takes before it writes. *)
Record OriginalData := {
  orig_full_name : string;
  orig_email : option string;
  orig_status : option string;
  orig_metadata : gmap string Json
}.

(** The [details] payload of an audit entry, one constructor per call site
    of [AuditService.log_action]. *)
Inductive AuditDetails :=
| DetailsData (data : TaxpayerCreate)
| DetailsUpdate (original : OriginalData) (updated : TaxpayerUpdate)
| DetailsReason (reason : string)
| DetailsVerification (data : list (string * Json)).

Record AuditLog := {
  log_id : UUID;
  log_user_id : UUID;
  entity_type : string;
  entity_id : UUID;
  action : string;
  details : AuditDetails;
  ip_address : option string;
  user_agent : option string;
  timestamp : datetime
}.

(** ** The store and the session ([api/db/session.py]) *)

Record Store := {
  users : list User;
  organizations : list Organization;
  taxpayers : list Taxpayer;
  audit_logs : list AuditLog
}.

(** [instance_metadata] holds, for every taxpayer object that was built
    in this session, the value of its plain attribute [metadata]: the
    constructor stores the keyword [metadata] on the object and not in a
    column.  An object that the session loaded from the table has no such
    attribute; see [metadata_attribute]. *)
Record Session := {
  durable : Store;       (* committed rows *)
  working : Store;       (* committed rows and the open transaction *)
  commits : nat;         (* number of [db.commit()] calls so far *)
  next_uuid : UUID;      (* supply for [uuid4] defaults *)
  instance_metadata : gmap UUID (option (gmap string Json))
}.

Definition set_taxpayers (f : list Taxpayer → list Taxpayer) (st : Store) : Store :=
  {| users := users st; organizations := organizations st;
     taxpayers := f (taxpayers st); audit_logs := audit_logs st |}.

Definition set_audit_logs (f : list AuditLog → list AuditLog) (st : Store) : Store :=
  {| users := users st; organizations := organizations st;
     taxpayers := taxpayers st; audit_logs := f (audit_logs st) |}.

Definition set_working (f : Store → Store) (s : Session) : Session :=
  {| durable := durable s; working := f (working s);
     commits := commits s; next_uuid := next_uuid s;
     instance_metadata := instance_metadata s |}.

(** ** Exceptions and the monad of the services *)

Inductive Exception :=
| NotFoundException (detail : string)
| BadRequestException (detail : string)
| ConflictException (detail : string)
| ForbiddenException (detail : string)
| UnauthorizedException (detail : string)
| HTTPException (status_code : nat) (detail : string)
| IntegrityError (text : string)
| TypeError (text : string)
| InternalError (text : string)
| AttributeError (text : string)
| StatementError (cause : string)
| PendingRollbackError (original : string).

(** Modelled from the spec: [api/utils/exceptions.py] is not among the
    sources.  The text [str(e)] that [bulk_create] stores for a failed
    item is the error message the exception was raised with.  For a
    [StatementError] and a [PendingRollbackError] the engine wraps the
    message of the cause into a longer text; the cause stands for it. *)
Definition str_exception (e : Exception) : string :=
  match e with
  | NotFoundException d | BadRequestException d | ConflictException d
  | ForbiddenException d | UnauthorizedException d | HTTPException _ d
  | IntegrityError d | TypeError d | InternalError d | AttributeError d
  | StatementError d | PendingRollbackError d => d
  end.

Inductive Outcome (A : Type) :=
| Return (a : A)
| Raise (e : Exception).
Arguments Return {A} a.
Arguments Raise {A} e.

Definition M (A : Type) : Type := Session → Outcome A * Session.

Definition ret {A} (a : A) : M A := fun s => (Return a, s).
Definition raise {A} (e : Exception) : M A := fun s => (Raise e, s).
Definition bind {A B} (m : M A) (k : A → M B) : M B :=
  fun s => match m s with
           | (Return a, s') => k a s'
           | (Raise e, s') => (Raise e, s')
           end.

Notation "'let!' x ':=' m 'in' k" := (bind m (fun x => k))
  (at level 10, x name, m at level 100, k at level 200,
   format "'[v' 'let!'  x  ':='  m  'in'  '/' k ']'").
Notation "'do!' m 'in' k" := (bind m (fun _ => k))
  (at level 10, m at level 100, k at level 200,
   format "'[v' 'do!'  m  'in'  '/' k ']'").

(** [try: m except E as e: h e], where [h] returns [None] on the
    exceptions the clause does not catch. *)
Definition try_except {A} (m : M A) (h : Exception → option (M A)) : M A :=
  fun s => match m s with
           | (Return a, s') => (Return a, s')
           | (Raise e, s') =>
               match h e with
               | Some handler => handler s'
               | None => (Raise e, s')
               end
           end.

Definition gets {A} (f : Session → A) : M A := fun s => (Return (f s), s).
Definition modify (f : Session → Session) : M unit := fun s => (Return tt, f s).

(** [uuid.uuid4()] as a column default. *)
Definition uuid4 : M UUID :=
  fun s => (Return (next_uuid s),
            {| durable := durable s; working := working s;
               commits := commits s; next_uuid := N.succ (next_uuid s);
               instance_metadata := instance_metadata s |}).

(** [await db.commit()]: the open transaction becomes durable. *)
Definition db_commit : M unit :=
  modify (fun s => {| durable := working s; working := working s;
                      commits := S (commits s); next_uuid := next_uuid s;
                      instance_metadata := instance_metadata s |}).

(** [await db.rollback()]: the open transaction is discarded. *)
Definition db_rollback : M unit :=
  modify (fun s => {| durable := durable s; working := durable s;
                      commits := commits s; next_uuid := next_uuid s;
                      instance_metadata := instance_metadata s |}).

(** [await session.close()] in the [finally] of [get_db]: what was not
    committed is discarded with the session, and so are its objects; the
    next request loads its objects from the table. *)
Definition session_close (s : Session) : Session :=
  {| durable := durable s; working := durable s;
     commits := commits s; next_uuid := next_uuid s;
     instance_metadata := ∅ |}.

(** [AsyncSessionLocal()] in [get_db]: the session of a request starts
    without objects. *)
Definition session_open (s : Session) : Session :=
  {| durable := durable s; working := working s;
     commits := commits s; next_uuid := next_uuid s;
     instance_metadata := ∅ |}.

(** A request handler under the [get_db] dependency: it runs in a session
    of its own, which is closed when the handler is left. *)
Definition with_db {A} (handler : M A) : M A :=
  fun s => let '(r, s') := handler (session_open s) in (r, session_close s').

(** ** Text helpers *)

Definition lower_ascii (c : ascii) : ascii :=
  let n := nat_of_ascii c in
  if (65 <=? n)%nat && (n <=? 90)%nat then ascii_of_nat (n + 32) else c.

(** [str.lower()] *)
Fixpoint lower (s : string) : string :=
  match s with
  | EmptyString => EmptyString
  | String c s' => String (lower_ascii c) (lower s')
  end.

(** [needle in haystack] on strings. *)
Definition contains (needle haystack : string) : bool :=
  match String.index 0 needle haystack with
  | Some _ => true
  | None => false
  end.

(** The constraint a statement can violate when it is flushed. *)
Inductive Violation := UniqueViolation | NotNullViolation.

(** ** Audit logger ([api/v1/services/audit_service.py]) *)

Section Services.

(** [datetime.utcnow()] and [date.today()] at the time of the request. *)
Variable utcnow : datetime.
Variable today : date.

(** The text of the [IntegrityError] the engine raises for a violated
    constraint. *)
Variable violation_text : Violation → string.

(** The flush of an audit entry writes [details] into a JSONB column
    with the serializer of the engine, [json.dumps]: strings, string
    enumerations, numbers, null, lists and dictionaries pass, a
    [uuid.UUID] and a [date] do not.  The payload of [create] and
    [bulk_create] is [taxpayer_data.model_dump()], which holds the
    employment date and, after it, the employer reference; the payload of
    [update] holds the patch.  [None] when the payload passes, else the
    message of the [TypeError] of the serializer. *)
Definition not_serializable (details : AuditDetails) : option string :=
  match details with
  | DetailsData data =>
      if truthy_opt (employment_date (create_base data))
      then Some "Object of type date is not JSON serializable"
      else if truthy_opt (create_employer_id data)
      then Some "Object of type UUID is not JSON serializable"
      else None
  | DetailsUpdate _ updated =>
      match upd_employment_date updated with
      | Some (Some _) => Some "Object of type date is not JSON serializable"
      | _ => None
      end
  | DetailsReason _ => None
  | DetailsVerification _ => None
  end.

(** [AuditService.log_action]: the entry is added and flushed into the
    open transaction; nothing is committed here.  When the flush fails,
    the session rolls the open transaction back and the error is raised
    as a [StatementError]. *)
Definition log_action (user_id : UUID) (entity_type : string)
    (entity_id : UUID) (action : string) (details : AuditDetails)
  : M AuditLog :=
  match not_serializable details with
  | Some cause =>
      do! db_rollback in
      raise (StatementError cause)
  | None =>
      let! i := uuid4 in
      let audit_log :=
        {| log_id := i; log_user_id := user_id; entity_type := entity_type;
           entity_id := entity_id; action := action; details := details;
           ip_address := None; user_agent := None; timestamp := utcnow |} in
      do! modify (set_working (set_audit_logs (fun l => l ++ [audit_log]))) in
      ret audit_log
  end.

(** ** The attribute [metadata] of a taxpayer object *)

(** The table has no column [metadata] (the extension map is declared as
    the column [extra_data]), and [metadata] is the name under which the
    declarative base keeps its registry of tables.  On an object loaded
    from the table, [taxpayer.metadata] is therefore that registry: an
    object that is true, has no [copy] and no item assignment.  On an
    object built in this session with the keyword [metadata], it is the
    value that was passed. *)
Inductive MetadataAttribute :=
| Registry
| Plain (value : option (gmap string Json)).

Definition metadata_attribute (taxpayer : Taxpayer) : M MetadataAttribute :=
  gets (fun s => match instance_metadata s !! id taxpayer with
                 | Some value => Plain value
                 | None => Registry
                 end).

(** [taxpayer.metadata = value] and the in-place changes of the map. *)
Definition set_metadata_attribute (taxpayer : Taxpayer)
    (value : option (gmap string Json)) : M unit :=
  modify (fun s =>
    {| durable := durable s; working := working s;
       commits := commits s; next_uuid := next_uuid s;
       instance_metadata := <[id taxpayer := value]> (instance_metadata s) |}).

(** The map of a plain attribute, empty for [None]. *)
Definition plain_map (value : option (gmap string Json)) : gmap string Json :=
  match value with
  | Some m => m
  | None => ∅
  end.

(** ** Taxpayer service ([api/v1/services/taxpayer_service.py]) *)

(** [select(Taxpayer).where(Taxpayer.id == taxpayer_id)], read inside the
    session: the open transaction's rows are visible. *)
Definition get_by_id (taxpayer_id : UUID) : M (option Taxpayer) :=
  gets (fun s =>
    find (fun tp => bool_decide (id tp = taxpayer_id)) (taxpayers (working s))).

(** [select(Taxpayer).where(Taxpayer.tin == tin)]: a row with a null
    tax-id never matches. *)
Definition get_by_tin (t : string) : M (option Taxpayer) :=
  gets (fun s =>
    find (fun tp => bool_decide (tin (base tp) = Some t)) (taxpayers (working s))).

(** [OrganizationService.get_by_id] ([api/v1/services/user_service.py]) *)
Definition organization_get_by_id (o : UUID) : M (option Organization) :=
  gets (fun s =>
    find (fun org => bool_decide (org_id org = o)) (organizations (working s))).

(** The unique index on [taxpayers.tin]: null values never collide. *)
Definition tin_taken (t : option string) (rows : list Taxpayer) : bool :=
  match t with
  | Some _ => existsb (fun tp => bool_decide (tin (base tp) = t)) rows
  | None => false
  end.

(** [db.add(db_taxpayer)] and the INSERT that the following
    [db.commit()] flushes: the identifier default is drawn, then the row
    is checked against the unique index. *)
Definition insert_taxpayer (mk : UUID → Taxpayer) : M Taxpayer :=
  let! i := uuid4 in
  let tp := mk i in
  let! rows := gets (fun s => taxpayers (working s)) in
  if tin_taken (tin (base tp)) rows
  then raise (IntegrityError (violation_text UniqueViolation))
  else do! modify (set_working (set_taxpayers (fun l => l ++ [tp]))) in
       ret tp.

(** [await db.refresh(obj)]: the attributes are read back from the row
    that was just written, which holds the same values. *)
Definition db_refresh (tp : Taxpayer) : M Taxpayer := ret tp.

(** The columns among the fields of the input: all but [metadata]. *)
Definition columns (b : TaxpayerBase) : TaxpayerBase :=
  {| full_name := full_name b; tin := tin b; bvn := bvn b; nin := nin b;
     email := email b; phone_number := phone_number b;
     address := address b; city := city b; state := state b;
     tax_type := tax_type b; business_name := business_name b;
     rc_number := rc_number b; business_type := business_type b;
     industry := industry b; employment_status := employment_status b;
     job_title := job_title b; employment_date := employment_date b;
     metadata := None |}.

(** The row of the [Taxpayer] built from [taxpayer_data.model_dump()]
    without [employer_id], stamped with the creator, with the column
    defaults. *)
Definition new_taxpayer (taxpayer_data : TaxpayerCreate) (current_user : User)
    (employer : option UUID) (i : UUID) : Taxpayer :=
  {| id := i; base := columns (create_base taxpayer_data);
     employer_id := employer;
     status := Some PENDING; is_verified := false;
     verification_date := None; last_filing_date := None;
     created_by := Some (user_id current_user);
     updated_by := Some (user_id current_user);
     created_at := utcnow; updated_at := None |}.

Definition create (taxpayer_data : TaxpayerCreate) (current_user : User)
  : M Taxpayer :=
  (* Check if TIN already exists *)
  do! (match tin (create_base taxpayer_data) with
       | Some t =>
           if truthy_str (Some t) then
             let! existing := get_by_tin t in
             match existing with
             | Some _ =>
                 raise (ConflictException
                          ("Taxpayer with TIN " ++ t ++ " already exists"))
             | None => ret tt
             end
           else ret tt
       | None => ret tt
       end) in
  (* Set employer if provided and user has permission *)
  let! employer :=
    (match create_employer_id taxpayer_data with
     | Some e =>
         let! org := organization_get_by_id e in
         match org with
         | None =>
             raise (BadRequestException
                      ("Organization " ++ str_uuid e ++ " not found"))
         | Some _ =>
             if negb (bool_decide (organization_id current_user = Some e))
                && negb (String.eqb (role_value (role current_user)) "ADMIN")
             then raise (ForbiddenException
                    "You can only assign taxpayers to your own organization")
             else ret (Some e)
         end
     | None => ret None
     end) in
  try_except
    (let! db_taxpayer :=
       insert_taxpayer (new_taxpayer taxpayer_data current_user employer) in
     (* the keyword [metadata] of the constructor *)
     do! set_metadata_attribute db_taxpayer
           (metadata (create_base taxpayer_data)) in
     do! db_commit in
     let! db_taxpayer := db_refresh db_taxpayer in
     (* Log the creation *)
     do! log_action (user_id current_user) "taxpayer" (id db_taxpayer)
           "create" (DetailsData taxpayer_data) in
     ret db_taxpayer)
    (fun e =>
       match e with
       | IntegrityError text =>
           Some (do! db_rollback in
                 if contains "unique constraint" (lower text)
                 then raise (ConflictException
                               "Taxpayer with these details already exists")
                 else raise (BadRequestException
                               ("Error creating taxpayer: " ++ text)))
       | _ => None
       end).

(** [TaxpayerService._check_permissions] *)
Definition _check_permissions (taxpayer : Taxpayer) (current_user : User)
    (action : string) : M unit :=
  (* Admins can do anything *)
  if String.eqb (role_value (role current_user)) "ADMIN" then ret tt
  else
    (* Accountants and Employers can only manage their organization's
       taxpayers *)
    do! (if str_in (role_value (role current_user)) ["ACCOUNTANT"; "EMPLOYER"]
         then
           if negb (bool_decide
                      (employer_id taxpayer = organization_id current_user))
           then raise (ForbiddenException
                         ("You don't have permission to " ++ action
                          ++ " this taxpayer"))
           else ret tt
         else ret tt) in
    (* Organization users have limited access *)
    if String.eqb (role_value (role current_user)) "ORGANIZATION"
    then raise (ForbiddenException
                  ("Organization users cannot " ++ action ++ " taxpayers"))
    else ret tt.

(** *** update *)

(** [original_data], with the copy of the extension map. *)
Definition original_data (taxpayer : Taxpayer)
    (original_metadata : gmap string Json) : OriginalData :=
  {| orig_full_name := full_name (base taxpayer);
     orig_email := email (base taxpayer);
     orig_status :=
       match status taxpayer with
       | Some st => Some (status_value st)
       | None => None
       end;
     orig_metadata := original_metadata |}.

Definition del_metadata (update_dict : TaxpayerUpdate) : TaxpayerUpdate :=
  {| upd_full_name := upd_full_name update_dict;
     upd_email := upd_email update_dict;
     upd_phone_number := upd_phone_number update_dict;
     upd_address := upd_address update_dict;
     upd_city := upd_city update_dict;
     upd_state := upd_state update_dict;
     upd_business_name := upd_business_name update_dict;
     upd_rc_number := upd_rc_number update_dict;
     upd_business_type := upd_business_type update_dict;
     upd_industry := upd_industry update_dict;
     upd_employment_status := upd_employment_status update_dict;
     upd_job_title := upd_job_title update_dict;
     upd_employment_date := upd_employment_date update_dict;
     upd_status := upd_status update_dict;
     upd_metadata := None |}.

(** Lines 136-139, on an object whose attribute is the plain [value]:
    when the patch has a [metadata] entry and the map is non-empty,
    [dict.update] writes the patch's keys over the map of the object, in
    place, and the entry is removed from [update_dict].
    [dict.update(None)] raises [TypeError]. *)
Definition merge_metadata (update_dict : TaxpayerUpdate) (taxpayer : Taxpayer)
    (value : option (gmap string Json)) : M TaxpayerUpdate :=
  match upd_metadata update_dict with
  | Some patch =>
      if truthy_dict value then
        match patch with
        | Some p =>
            do! set_metadata_attribute taxpayer (Some (p ∪ plain_map value)) in
            ret (del_metadata update_dict)
        | None => raise (TypeError "'NoneType' object is not iterable")
        end
      else ret update_dict
  | None => ret update_dict
  end.

Definition patched {A} (entry : option A) (old : A) : A :=
  match entry with Some v => v | None => old end.

(** A non-nullable column: a null entry leaves the object without a value
    for it, which the flush rejects (see [null_entry]). *)
Definition patched_required {A} (entry : option (option A)) (old : A) : A :=
  match entry with Some (Some v) => v | _ => old end.

(** [for field, value in update_dict.items(): setattr(taxpayer, field,
    value)], for the fields that are columns. *)
Definition setattr_all (update_dict : TaxpayerUpdate) (taxpayer : Taxpayer)
  : Taxpayer :=
  let b := base taxpayer in
  {| id := id taxpayer;
     base :=
       {| full_name := patched_required (upd_full_name update_dict) (full_name b);
          tin := tin b; bvn := bvn b; nin := nin b;
          email := patched (upd_email update_dict) (email b);
          phone_number := patched (upd_phone_number update_dict) (phone_number b);
          address := patched (upd_address update_dict) (address b);
          city := patched (upd_city update_dict) (city b);
          state := patched_required (upd_state update_dict) (state b);
          tax_type := tax_type b;
          business_name := patched (upd_business_name update_dict) (business_name b);
          rc_number := patched (upd_rc_number update_dict) (rc_number b);
          business_type := patched (upd_business_type update_dict) (business_type b);
          industry := patched (upd_industry update_dict) (industry b);
          employment_status :=
            patched (upd_employment_status update_dict) (employment_status b);
          job_title := patched (upd_job_title update_dict) (job_title b);
          employment_date :=
            patched (upd_employment_date update_dict) (employment_date b);
          metadata := metadata b |};
     employer_id := employer_id taxpayer;
     status := patched (upd_status update_dict) (status taxpayer);
     is_verified := is_verified taxpayer;
     verification_date := verification_date taxpayer;
     last_filing_date := last_filing_date taxpayer;
     created_by := created_by taxpayer; updated_by := updated_by taxpayer;
     created_at := created_at taxpayer; updated_at := updated_at taxpayer |}.

(** The same loop for the field [metadata], which is left in the patch
    when the map of the object was empty: it is set on the object. *)
Definition setattr_metadata (update_dict : TaxpayerUpdate) (taxpayer : Taxpayer)
  : M unit :=
  match upd_metadata update_dict with
  | Some value => set_metadata_attribute taxpayer value
  | None => ret tt
  end.

(** The columns declared [nullable=False] that a patch can set to null. *)
Definition null_entry (update_dict : TaxpayerUpdate) : bool :=
  match upd_full_name update_dict, upd_state update_dict with
  | Some None, _ => true
  | _, Some None => true
  | _, _ => false
  end.

Definition stamp (current_user : User) (taxpayer : Taxpayer) : Taxpayer :=
  {| id := id taxpayer; base := base taxpayer;
     employer_id := employer_id taxpayer; status := status taxpayer;
     is_verified := is_verified taxpayer;
     verification_date := verification_date taxpayer;
     last_filing_date := last_filing_date taxpayer;
     created_by := created_by taxpayer;
     updated_by := Some (user_id current_user);
     created_at := created_at taxpayer; updated_at := Some utcnow |}.

(** The UPDATE of a modified object, flushed into the open transaction. *)
Definition flush_taxpayer (taxpayer : Taxpayer) : M unit :=
  modify (set_working (set_taxpayers
    (map (fun row => if bool_decide (id row = id taxpayer)
                     then taxpayer else row)))).

Definition update (taxpayer_id : UUID) (update_data : TaxpayerUpdate)
    (current_user : User) : M Taxpayer :=
  let! found := get_by_id taxpayer_id in
  match found with
  | None =>
      raise (NotFoundException
               ("Taxpayer " ++ str_uuid taxpayer_id ++ " not found"))
  | Some taxpayer =>
      (* Check permissions *)
      do! _check_permissions taxpayer current_user "update" in
      (* Store original data for audit:
         taxpayer.metadata.copy() if taxpayer.metadata else {} *)
      let! attribute := metadata_attribute taxpayer in
      let! value :=
        (match attribute with
         | Registry =>
             raise (AttributeError
                      "'MetaData' object has no attribute 'copy'")
         | Plain value => ret value
         end) in
      let original :=
        original_data taxpayer
          (if truthy_dict value then plain_map value else ∅) in
      (* Update fields *)
      let! update_dict := merge_metadata update_data taxpayer value in
      do! setattr_metadata update_dict taxpayer in
      let taxpayer := stamp current_user (setattr_all update_dict taxpayer) in
      try_except
        (do! (if null_entry update_dict
              then raise (IntegrityError (violation_text NotNullViolation))
              else flush_taxpayer taxpayer) in
         do! db_commit in
         let! taxpayer := db_refresh taxpayer in
         (* Log the update *)
         do! log_action (user_id current_user) "taxpayer" (id taxpayer)
               "update" (DetailsUpdate original update_dict) in
         ret taxpayer)
        (fun e =>
           match e with
           | IntegrityError text =>
               Some (do! db_rollback in
                     raise (BadRequestException
                              ("Error updating taxpayer: " ++ text)))
           | _ => None
           end)
  end.

(** *** delete *)

Definition set_status (st : option TaxpayerStatus) (taxpayer : Taxpayer)
  : Taxpayer :=
  {| id := id taxpayer; base := base taxpayer;
     employer_id := employer_id taxpayer; status := st;
     is_verified := is_verified taxpayer;
     verification_date := verification_date taxpayer;
     last_filing_date := last_filing_date taxpayer;
     created_by := created_by taxpayer; updated_by := updated_by taxpayer;
     created_at := created_at taxpayer; updated_at := updated_at taxpayer |}.

(** [await db.delete(taxpayer)] *)
Definition db_delete (taxpayer : Taxpayer) : M unit :=
  modify (set_working (set_taxpayers
    (filter (fun row => id row ≠ id taxpayer)))).

Definition delete (taxpayer_id : UUID) (current_user : User)
    (soft_delete : bool) : M unit :=
  let! found := get_by_id taxpayer_id in
  match found with
  | None =>
      raise (NotFoundException
               ("Taxpayer " ++ str_uuid taxpayer_id ++ " not found"))
  | Some taxpayer =>
      (* Check permissions *)
      do! _check_permissions taxpayer current_user "delete" in
      do! (if soft_delete then
             (* Soft delete (update status) *)
             do! flush_taxpayer
                   (stamp current_user (set_status (Some DELETED) taxpayer)) in
             do! log_action (user_id current_user) "taxpayer" (id taxpayer)
                   "soft_delete" (DetailsReason "User requested deletion") in
             ret tt
           else
             (* Hard delete (remove from database) *)
             do! db_delete taxpayer in
             do! log_action (user_id current_user) "taxpayer" taxpayer_id
                   "hard_delete"
                   (DetailsReason "Permanent deletion requested") in
             ret tt) in
      db_commit
  end.

(** *** verify *)

Definition set_verified (d : date) (taxpayer : Taxpayer) : Taxpayer :=
  {| id := id taxpayer; base := base taxpayer;
     employer_id := employer_id taxpayer; status := status taxpayer;
     is_verified := true; verification_date := Some d;
     last_filing_date := last_filing_date taxpayer;
     created_by := created_by taxpayer; updated_by := updated_by taxpayer;
     created_at := created_at taxpayer; updated_at := updated_at taxpayer |}.

(** [if verification_data:] on a dictionary. *)
Definition truthy_items (o : option (list (string * Json))) : bool :=
  match o with
  | Some (_ :: _) => true
  | _ => false
  end.

(** Lines 345-348: with verification data, the detail is put under the
    key ["verification"] of the attribute [metadata], after an empty map
    has replaced an empty or missing one.  The registry of an object
    loaded from the table is true and takes no item: [TypeError]. *)
Definition store_verification (verification_data : option (list (string * Json)))
    (taxpayer : Taxpayer) : M unit :=
  match verification_data with
  | Some items =>
      if truthy_items (Some items) then
        let! attribute := metadata_attribute taxpayer in
        match attribute with
        | Registry =>
            raise (TypeError
                     "'MetaData' object does not support item assignment")
        | Plain value =>
            set_metadata_attribute taxpayer
              (Some (<["verification" := JDict items]>
                       (if truthy_dict value then plain_map value else ∅)))
        end
      else ret tt
  | None => ret tt
  end.

Definition verify_taxpayer (taxpayer_id : UUID) (current_user : User)
    (verification_data : option (list (string * Json))) : M Taxpayer :=
  let! found := get_by_id taxpayer_id in
  match found with
  | None =>
      raise (NotFoundException
               ("Taxpayer " ++ str_uuid taxpayer_id ++ " not found"))
  | Some taxpayer =>
      (* Check permissions (only admins and organization accountants can
         verify) *)
      if negb (str_in (role_value (role current_user)) ["ADMIN"; "ACCOUNTANT"])
      then raise (ForbiddenException
                    "You don't have permission to verify taxpayers")
      else
        do! (if truthy_opt (employer_id taxpayer)
                && String.eqb (role_value (role current_user)) "ACCOUNTANT"
             then
               if negb (bool_decide
                          (employer_id taxpayer = organization_id current_user))
               then raise (ForbiddenException
                             "You can only verify taxpayers in your organization")
               else ret tt
             else ret tt) in
        let taxpayer := stamp current_user (set_verified today taxpayer) in
        do! store_verification verification_data taxpayer in
        do! flush_taxpayer taxpayer in
        do! db_commit in
        let! taxpayer := db_refresh taxpayer in
        do! log_action (user_id current_user) "taxpayer" (id taxpayer)
              "verify"
              (DetailsVerification
                 (match verification_data with
                  | Some items => items
                  | None => []
                  end)) in
        ret taxpayer
  end.

(** *** bulk_create *)

(** One turn of the loop of [bulk_create] in a usable session: the item
    goes through [create], the row is appended to the successes, an audit
    entry ["bulk_create"] follows, and any exception is caught and
    recorded with the input.  The second component is the exception that
    was caught, if any. *)
Definition bulk_create_attempt (current_user : User) (data : TaxpayerCreate)
    (acc : list Taxpayer * list (TaxpayerCreate * string))
  : M ((list Taxpayer * list (TaxpayerCreate * string)) * option Exception) :=
  let! created :=
    try_except
      (let! taxpayer := create data current_user in ret (inl taxpayer))
      (fun e => Some (ret (inr e))) in
  match created with
  | inr e => ret ((fst acc, snd acc ++ [(data, str_exception e)]), Some e)
  | inl taxpayer =>
      let successful := fst acc ++ [taxpayer] in
      try_except
        (do! log_action (user_id current_user) "taxpayer" (id taxpayer)
               "bulk_create" (DetailsData data) in
         ret ((successful, snd acc), None))
        (fun e =>
           Some (ret ((successful, snd acc ++ [(data, str_exception e)]),
                      Some e)))
  end.

Definition bulk_create_item (current_user : User) (data : TaxpayerCreate)
    (acc : list Taxpayer * list (TaxpayerCreate * string))
  : M (list Taxpayer * list (TaxpayerCreate * string)) :=
  let! turn := bulk_create_attempt current_user data acc in
  ret (fst turn).

(** A failed flush leaves the transaction of the session rolled back and
    unusable: until [rollback()] is called, every statement and every
    commit raises [PendingRollbackError].  [bulk_create] is the one
    service that goes on after such a failure. *)
Definition flush_failure (e : option Exception) : option string :=
  match e with
  | Some (StatementError cause) => Some cause
  | _ => None
  end.

(** The loop; [unusable] is the cause of the failed flush once there was
    one.  From then on [create] raises at its first statement for every
    item. *)
Fixpoint bulk_create_loop (current_user : User)
    (taxpayers_data : list TaxpayerCreate)
    (acc : list Taxpayer * list (TaxpayerCreate * string))
    (unusable : option string)
  : M ((list Taxpayer * list (TaxpayerCreate * string)) * option string) :=
  match taxpayers_data with
  | [] => ret (acc, unusable)
  | data :: rest =>
      match unusable with
      | Some cause =>
          bulk_create_loop current_user rest
            (fst acc,
             snd acc ++ [(data, str_exception (PendingRollbackError cause))])
            unusable
      | None =>
          let! turn := bulk_create_attempt current_user data acc in
          bulk_create_loop current_user rest (fst turn)
            (flush_failure (snd turn))
      end
  end.

Definition bulk_create (taxpayers_data : list TaxpayerCreate)
    (current_user : User)
  : M (list Taxpayer * list (TaxpayerCreate * string)) :=
  let! result := bulk_create_loop current_user taxpayers_data ([], []) None in
  (* Commit once after all operations *)
  match snd result with
  | Some cause => raise (PendingRollbackError cause)
  | None =>
      do! db_commit in
      ret (fst result)
  end.

(** *** get_all *)

(** [TaxpayerFilter] *)
Record TaxpayerFilter := {
  flt_state : option NigerianState;
  flt_tax_type : option TaxType;
  flt_status : option TaxpayerStatus;
  flt_employer_id : option UUID;
  flt_is_verified : option bool;
  flt_search : option string;
  flt_created_after : option date;
  flt_created_before : option date
}.

(** A query is what it selects from the rows of the table. *)
Definition Query := list Taxpayer → list Taxpayer.

Definition select_taxpayer : Query := fun rows => rows.

(** [query.where(p)] *)
Definition where_ (p : Taxpayer → bool) (q : Query) : Query :=
  fun rows => List.filter p (q rows).

(** [column.ilike(pattern)] of the engine, on a non-null value. *)
Variable ilike : string → string → bool.

Definition ilike_opt (column : option string) (pattern : string) : bool :=
  match column with
  | Some v => ilike v pattern
  | None => false
  end.

(** A bound on [created_at] is a date: the engine compares the
    timestamp with the start of that day. *)
Variable midnight : date → datetime.

(** The engine leaves the order of rows with the same [created_at] open:
    [before a b] says that it puts [a] before [b] among such rows. *)
Variable before : Taxpayer → Taxpayer → bool.

Fixpoint insert_desc (tp : Taxpayer) (sorted : list Taxpayer) : list Taxpayer :=
  match sorted with
  | [] => [tp]
  | x :: rest =>
      if (created_at x <? created_at tp)%Z
         || ((created_at x =? created_at tp)%Z && before tp x)
      then tp :: sorted
      else x :: insert_desc tp rest
  end.

(** [query.order_by(Taxpayer.created_at.desc())] *)
Definition order_by_created_at_desc (q : Query) : Query :=
  fun rows => fold_right insert_desc [] (q rows).

(** [TaxpayerService._apply_filters] *)
Definition _apply_filters (query : Query) (filter_data : TaxpayerFilter)
    (current_user : User) : Query :=
  (* Base permission filter *)
  let query :=
    if negb (String.eqb (role_value (role current_user)) "ADMIN") then
      (* Non-admin users can only see their organization's taxpayers *)
      if str_in (role_value (role current_user)) ["ACCOUNTANT"; "EMPLOYER"]
      then where_ (fun tp => bool_decide
                     (employer_id tp = organization_id current_user)) query
      else query
    else query in
  (* Apply user-provided filters *)
  let query :=
    match flt_state filter_data with
    | Some st =>
        if truthy_str (Some st)
        then where_ (fun tp => String.eqb (state (base tp)) st) query
        else query
    | None => query
    end in
  let query :=
    match flt_tax_type filter_data with
    | Some ty => where_ (fun tp => bool_decide (tax_type (base tp) = ty)) query
    | None => query
    end in
  let query :=
    match flt_status filter_data with
    | Some st => where_ (fun tp => bool_decide (status tp = Some st)) query
    | None =>
        (* Exclude deleted taxpayers by default *)
        where_ (fun tp => match status tp with
                          | Some st => negb (bool_decide (st = DELETED))
                          | None => false
                          end) query
    end in
  let query :=
    match flt_employer_id filter_data with
    | Some e => where_ (fun tp => bool_decide (employer_id tp = Some e)) query
    | None => query
    end in
  let query :=
    match flt_is_verified filter_data with
    | Some v => where_ (fun tp => Bool.eqb (is_verified tp) v) query
    | None => query
    end in
  let query :=
    match flt_search filter_data with
    | Some text =>
        if truthy_str (Some text) then
          let search_pattern := ("%" ++ text ++ "%")%string in
          where_ (fun tp =>
                    ilike (full_name (base tp)) search_pattern
                    || ilike_opt (tin (base tp)) search_pattern
                    || ilike_opt (business_name (base tp)) search_pattern
                    || ilike_opt (email (base tp)) search_pattern) query
        else query
    | None => query
    end in
  let query :=
    match flt_created_after filter_data with
    | Some d => where_ (fun tp => (midnight d <=? created_at tp)%Z) query
    | None => query
    end in
  let query :=
    match flt_created_before filter_data with
    | Some d => where_ (fun tp => (created_at tp <=? midnight d)%Z) query
    | None => query
    end in
  (* Order by creation date (newest first) *)
  order_by_created_at_desc query.

Definition get_all (filter_data : TaxpayerFilter) (current_user : User)
    (skip limit : nat) : M (list Taxpayer * nat) :=
  let query := _apply_filters select_taxpayer filter_data current_user in
  let! rows := gets (fun s => taxpayers (working s)) in
  (* Get total count *)
  let total := length (query rows) in
  (* Apply pagination *)
  let taxpayers := firstn limit (skipn skip (query rows)) in
  ret (taxpayers, total).

End Services.

(** ** Identity service ([api/v1/services/auth_service.py]) *)

(** [LoginRequest] *)
Record LoginRequest := {
  login_email : string;
  login_password : string
}.

Module AuthService.
Section Auth.

(** [core.security.verify_password(plain, hashed)], the password hasher. *)
Variable verify_password : string → string → bool.

Definition authenticate_user (login_data : LoginRequest) : M (option User) :=
  (* Get user by email *)
  let! user := gets (fun s =>
    find (fun u => String.eqb (user_email u) (login_email login_data))
         (users (working s))) in
  match user with
  | None => ret None
  | Some user =>
      (* Check password *)
      if negb (verify_password (login_password login_data) (password_hash user))
      then ret None
      else
        (* Check if user is active *)
        if negb (is_active user)
        then raise (UnauthorizedException "User account is inactive")
        else ret (Some user)
  end.

(** [AuthService.require_role] *)
Definition require_role (user : User) (required_roles : list string) : M unit :=
  if negb (str_in (role_value (role user)) required_roles)
  then raise (ForbiddenException "Insufficient permissions")
  else ret tt.

End Auth.
End AuthService.

(** ** Routes ([api/v1/routes/taxpayer.py], [api/v1/dependencies.py]) *)

(** [TaxpayerImportResult] *)
Record TaxpayerImportResult (Response : Type) := {
  successful : list Response;
  failed : list (TaxpayerCreate * string);
  total_processed : nat;
  successful_count : nat;
  failed_count : nat
}.
Arguments successful {Response} _.
Arguments failed {Response} _.
Arguments total_processed {Response} _.
Arguments successful_count {Response} _.
Arguments failed_count {Response} _.

(** [[TaxpayerResponse.model_validate(tp) for tp in taxpayers]]: the
    responses, or [None] when one of the validations raises. *)
Fixpoint validate_all {Response} (model_validate : Taxpayer → option Response)
    (taxpayers : list Taxpayer) : option (list Response) :=
  match taxpayers with
  | [] => Some []
  | tp :: rest =>
      match model_validate tp, validate_all model_validate rest with
      | Some r, Some rs => Some (r :: rs)
      | _, _ => None
      end
  end.

Module Routes.
Section Handlers.

Variable utcnow : datetime.
Variable today : date.
Variable violation_text : Violation → string.

(** The response schemas.  [model_validate] builds a response from the
    attributes of the taxpayer and [detail_response] is lines 92-101 of
    [get_taxpayer] (validation, then the counts of the related rows);
    both are [None] when they raise. *)
Variable Response : Type.
Variable model_validate : Taxpayer → option Response.
Variable detail_response : Taxpayer → option Response.

(** The dependency [require_role(required_roles)], applied to the user
    that [get_current_user] resolved. *)
Definition require_role (required_roles : list string) (current_user : User)
  : M User :=
  do! AuthService.require_role current_user required_roles in
  ret current_user.

(** [return TaxpayerResponse.model_validate(taxpayer)] *)
Definition validated (taxpayer : Taxpayer) : M Response :=
  match model_validate taxpayer with
  | Some response => ret response
  | None => raise (InternalError "Internal Server Error")
  end.

Definition create_taxpayer (taxpayer_data : TaxpayerCreate) (caller : User)
  : M Response :=
  with_db
    (let! current_user :=
       require_role ["ADMIN"; "ACCOUNTANT"; "EMPLOYER"] caller in
     let! taxpayer := create utcnow violation_text taxpayer_data current_user in
     validated taxpayer).

Definition get_taxpayer (taxpayer_id : UUID) (current_user : User)
  : M Response :=
  with_db
    (let! taxpayer := get_by_id taxpayer_id in
     match taxpayer with
     | None =>
         raise (NotFoundException
                  ("Taxpayer " ++ str_uuid taxpayer_id ++ " not found"))
     | Some taxpayer =>
         match detail_response taxpayer with
         | Some response => ret response
         | None => raise (InternalError "Internal Server Error")
         end
     end).

Definition update_taxpayer (taxpayer_id : UUID) (update_data : TaxpayerUpdate)
    (caller : User) : M Response :=
  with_db
    (let! current_user :=
       require_role ["ADMIN"; "ACCOUNTANT"; "EMPLOYER"] caller in
     let! taxpayer :=
       update utcnow violation_text taxpayer_id update_data current_user in
     validated taxpayer).

Definition delete_taxpayer (taxpayer_id : UUID) (soft_delete : bool)
    (caller : User) : M unit :=
  with_db
    (let! current_user := require_role ["ADMIN"; "ACCOUNTANT"] caller in
     delete utcnow taxpayer_id current_user soft_delete).

Definition verify_taxpayer (taxpayer_id : UUID) (caller : User) : M Response :=
  with_db
    (let! current_user := require_role ["ADMIN"; "ACCOUNTANT"] caller in
     let! taxpayer :=
       verify_taxpayer utcnow today taxpayer_id current_user None in
     validated taxpayer).

Definition bulk_create_taxpayers (bulk_data : list TaxpayerCreate)
    (caller : User) : M (TaxpayerImportResult Response) :=
  with_db
    (let! current_user := require_role ["ADMIN"; "ACCOUNTANT"] caller in
     let! result := bulk_create utcnow violation_text bulk_data current_user in
     match validate_all model_validate (fst result) with
     | Some responses =>
         ret {| successful := responses;
                failed := snd result;
                total_processed := length bulk_data;
                successful_count := length (fst result);
                failed_count := length (snd result) |}
     | None => raise (InternalError "Internal Server Error")
     end).

Definition search_by_tin (t : string) (current_user : User) : M Response :=
  with_db
    (let! taxpayer := get_by_tin t in
     match taxpayer with
     | None =>
         raise (NotFoundException ("No taxpayer found with TIN " ++ t))
     | Some taxpayer =>
         (* Check permissions *)
         do! (if negb (String.eqb (role_value (role current_user)) "ADMIN")
                 && str_in (role_value (role current_user))
                      ["ACCOUNTANT"; "EMPLOYER"]
                 && negb (bool_decide
                            (employer_id taxpayer = organization_id current_user))
              then raise (HTTPException 403
                            "You don't have permission to view this taxpayer")
              else ret tt) in
         match model_validate taxpayer with
         | Some response => ret response
         | None => raise (InternalError "Internal Server Error")
         end
     end).

End Handlers.
End Routes.

(** ** Computed properties and validators
       ([api/v1/models/taxpayer.py], [api/v1/schemas/taxpayer.py]) *)

(** [ty in tys] on tax types. *)
Definition tax_type_in (ty : TaxType) (tys : list TaxType) : bool :=
  existsb (fun ty' => bool_decide (ty = ty')) tys.

(** [Taxpayer.is_individual] *)
Definition is_individual (taxpayer : Taxpayer) : bool :=
  tax_type_in (tax_type (base taxpayer)) [PAYE; PIT].

(** [Taxpayer.is_company] *)
Definition is_company (taxpayer : Taxpayer) : bool :=
  tax_type_in (tax_type (base taxpayer)) [CIT; VAT; WHT].

(** What a validator of a schema does with a value: it returns it, or it
    raises [ValueError]. *)
Inductive Validated (A : Type) :=
| Valid (v : A)
| ValueError (msg : string).
Arguments Valid {A} v.
Arguments ValueError {A} msg.

(** [TaxpayerCreate.validate_business_name]; [values_tax_type] is
    [values.get('tax_type')]. *)
Definition validate_business_name (v : option string)
    (values_tax_type : option TaxType) : Validated (option string) :=
  if match values_tax_type with
     | Some ty => tax_type_in ty [CIT; VAT; WHT]
     | None => false
     end
  then
    if negb (truthy_str v)
    then ValueError "Business name is required for company tax types"
    else Valid v
  else Valid v.

(** [TaxpayerCreate.validate_employment_for_paye] *)
Definition validate_employment_for_paye (v : option string)
    (values_tax_type : option TaxType) : Validated (option string) :=
  if bool_decide (values_tax_type = Some PAYE)
  then
    if negb (truthy_str v)
    then ValueError "Employment status is required for PAYE taxpayers"
    else Valid v
  else Valid v.

(** ** Statistics ([TaxpayerService.get_stats], [get_taxpayer_stats]) *)

(** A Python number: the rate is the integer [0] or a float. *)
Inductive Number (float : Type) :=
| IntNumber (n : Z)
| FloatNumber (x : float).
Arguments IntNumber {float} n.
Arguments FloatNumber {float} x.

Record TaxpayerStats (float : Type) := {
  stats_total : nat;
  stats_verified : nat;
  stats_verification_rate : Number float;
  stats_by_tax_type : list (TaxType * nat);
  stats_by_status : list (option TaxpayerStatus * nat);
  stats_by_state : list (string * nat)
}.
Arguments stats_total {float} _.
Arguments stats_verified {float} _.
Arguments stats_verification_rate {float} _.
Arguments stats_by_tax_type {float} _.
Arguments stats_by_status {float} _.
Arguments stats_by_state {float} _.

Section Statistics.

(** [verified_count / total * 100] is floating-point arithmetic; its
    result on two counts is [percentage verified_count total]. *)
Variable float : Type.
Variable percentage : nat → nat → float.

(** The two grouped selects, [select(Taxpayer.tax_type,
    func.count(Taxpayer.id)).select_from(query.subquery())
    .group_by(Taxpayer.tax_type)] and the same on [Taxpayer.status], name
    columns of the table and put the filtered query into their FROM clause
    as a subquery.  Which rows the engine groups follows from the FROM
    clause the query builder derives, which the service does not fix: the
    dictionary read from the result is a function of the table and of the
    rows of the subquery. *)
Variable count_by_tax_type :
  list Taxpayer → list Taxpayer → list (TaxType * nat).
Variable count_by_status :
  list Taxpayer → list Taxpayer → list (option TaxpayerStatus * nat).

Definition get_stats (current_user : User) (for_organization_id : option UUID)
  : M (TaxpayerStats float) :=
  (* Base query with permission filter *)
  let query := select_taxpayer in
  let query :=
    if negb (String.eqb (role_value (role current_user)) "ADMIN") then
      if str_in (role_value (role current_user)) ["ACCOUNTANT"; "EMPLOYER"]
      then where_ (fun tp => bool_decide
                     (employer_id tp = organization_id current_user)) query
      else if String.eqb (role_value (role current_user)) "ORGANIZATION"
      then (* Organizations can only see aggregate stats *) query
      else query
    else query in
  let query :=
    if truthy_opt for_organization_id
    then where_ (fun tp => bool_decide (employer_id tp = for_organization_id))
                query
    else query in
  (* Exclude deleted taxpayers *)
  let query :=
    where_ (fun tp => match status tp with
                      | Some st => negb (bool_decide (st = DELETED))
                      | None => false
                      end) query in
  let! rows := gets (fun s => taxpayers (working s)) in
  (* Get counts by tax type *)
  let tax_type_counts := count_by_tax_type rows (query rows) in
  (* Get counts by status *)
  let status_counts := count_by_status rows (query rows) in
  (* Get total count *)
  let total := length (query rows) in
  (* Get verified count *)
  let verified_count :=
    length (where_ (fun tp => Bool.eqb (is_verified tp) true) query rows) in
  ret {| stats_total := total;
         stats_verified := verified_count;
         stats_verification_rate :=
           if (0 <? total)%nat
           then FloatNumber (percentage verified_count total)
           else IntNumber 0;
         stats_by_tax_type := tax_type_counts;
         stats_by_status := status_counts;
         stats_by_state := [] |}.

(** The route [get_taxpayer_stats]. *)
Definition get_taxpayer_stats (current_user : User)
    (for_organization_id : option UUID) : M (TaxpayerStats float) :=
  with_db (get_stats current_user for_organization_id).

End Statistics.

(** ** The response of the list route ([get_taxpayers], lines 61-78) *)

(** [TaxpayerListResponse] *)
Record TaxpayerListResponse (Response : Type) := {
  resp_items : list Response;
  resp_total : nat;
  resp_page : nat;
  resp_size : nat;
  resp_pages : nat
}.
Arguments resp_items {Response} _.
Arguments resp_total {Response} _.
Arguments resp_page {Response} _.
Arguments resp_size {Response} _.
Arguments resp_pages {Response} _.

(** The response of [get_taxpayers]: the page of the service, validated,
    and the number of pages by ceiling division. *)
Definition get_taxpayers_response (ilike : string → string → bool)
    (midnight : date → datetime) (before : Taxpayer → Taxpayer → bool)
    (Response : Type)
    (model_validate : Taxpayer → option Response)
    (filter_data : TaxpayerFilter)
    (page size : nat) (current_user : User)
  : M (TaxpayerListResponse Response) :=
  with_db
    ((* Calculate pagination *)
     let skip := (page - 1) * size in
     (* Get taxpayers *)
     let! result :=
       get_all ilike midnight before filter_data current_user skip size in
     let total := snd result in
     (* Calculate pagination info *)
     let pages := (total + size - 1) / size in
     match validate_all model_validate (fst result) with
     | Some items =>
         ret {| resp_items := items; resp_total := total; resp_page := page;
                resp_size := size; resp_pages := pages |}
     | None => raise (InternalError "Internal Server Error")
     end).

(** ** Tokens ([AuthService.login], [AuthService.get_current_user]) *)

(** What [login] returns. *)
Record Token := {
  access_token : string;
  token_type : string;
  token_user : User
}.

Section Tokens.

Variable verify_password : string → string → bool.

(** [core.security.create_access_token(data)] and
    [core.security.decode_token(token)], the latter [None] when it raises;
    [uuid.UUID(text)] as the schema [TokenData] parses it. *)
Variable create_access_token : gmap string Json → string.
Variable decode_token : string → option (gmap string Json).
Variable parse_uuid : string → option UUID.

(** The claims [login] puts into the token. *)
Definition token_claims (user : User) : gmap string Json :=
  {[ "sub" := JStr (str_uuid (user_id user));
     "email" := JStr (user_email user);
     "role" := JStr (role_value (role user)) ]}.

Definition login (login_data : LoginRequest) : M Token :=
  let! user := AuthService.authenticate_user verify_password login_data in
  match user with
  | None => raise (UnauthorizedException "Incorrect email or password")
  | Some user =>
      (* Create access token *)
      let access_token := create_access_token (token_claims user) in
      ret {| access_token := access_token; token_type := "bearer";
             token_user := user |}
  end.

(** An [Optional[str]] field of [TokenData] accepts a missing value, null
    and a string. *)
Definition optional_str (v : option Json) : bool :=
  match v with
  | None | Some JNull | Some (JStr _) => true
  | Some _ => false
  end.

(** [TokenData(user_id=user_id, email=..., role=...)] on a [sub] that is
    not [None]: the identifier it holds, or [None] when the validation
    fails. *)
Definition token_data (sub : Json) (payload : gmap string Json) : option UUID :=
  match sub with
  | JStr text =>
      if optional_str (payload !! "email") && optional_str (payload !! "role")
      then parse_uuid text
      else None
  | _ => None
  end.

Definition get_current_user (token : string) : M User :=
  let! user_id' :=
    try_except
      (match decode_token token with
       | None => raise (InternalError "decode_token")
       | Some payload =>
           match payload !! "sub" with
           | None | Some JNull =>
               raise (UnauthorizedException "Could not validate credentials")
           | Some sub =>
               match token_data sub payload with
               | Some i => ret i
               | None => raise (InternalError "ValidationError")
               end
           end
       end)
      (fun _ =>
         Some (raise (UnauthorizedException "Could not validate credentials"))) in
  (* Get user from database *)
  let! user := gets (fun s =>
    find (fun u => bool_decide (user_id u = user_id')) (users (working s))) in
  match user with
  | None => raise (NotFoundException "User not found")
  | Some user =>
      if negb (is_active user)
      then raise (UnauthorizedException "User account is inactive")
      else ret user
  end.

End Tokens.

(** ** Users ([api/v1/services/user_service.py], [api/v1/routes/auth.py]) *)

(** [UserCreate] *)
Record UserCreate := {
  uc_name : string;
  uc_email : string;
  uc_password : string;
  uc_role : UserRole;
  uc_organization_id : option UUID
}.

(** [UserUpdate]; as for [TaxpayerUpdate], [None] is a field that was not
    sent and [Some None] a field sent as null. *)
Record UserUpdate := {
  uu_name : option (option string);
  uu_email : option (option string)
}.

(** [PasswordChange] *)
Record PasswordChange := {
  current_password : string;
  new_password : string
}.

Definition set_users (f : list User → list User) (st : Store) : Store :=
  {| users := f (users st); organizations := organizations st;
     taxpayers := taxpayers st; audit_logs := audit_logs st |}.

Module UserService.
Section Users.

(** [core.security.get_password_hash] and [verify_password]. *)
Variable get_password_hash : string → string.
Variable verify_password : string → string → bool.

(** The text of the [IntegrityError] of the engine, by kind of constraint;
    [foreign_key_text] is the one of a violated foreign key. *)
Variable violation_text : Violation → string.
Variable foreign_key_text : string.

Definition get_by_id (i : UUID) : M (option User) :=
  gets (fun s => find (fun u => bool_decide (user_id u = i)) (users (working s))).

Definition get_by_email (mail : string) : M (option User) :=
  gets (fun s => find (fun u => String.eqb (user_email u) mail) (users (working s))).

(** The INSERT of a user: the unique index on [users.email], then the
    foreign key of [users.organization_id]. *)
Definition insert_user (mk : UUID → User) : M User :=
  let! i := uuid4 in
  let user := mk i in
  let! st := gets working in
  if existsb (fun u => String.eqb (user_email u) (user_email user)) (users st)
  then raise (IntegrityError (violation_text UniqueViolation))
  else
    if match organization_id user with
       | Some o => negb (existsb (fun org => bool_decide (org_id org = o))
                                 (organizations st))
       | None => false
       end
    then raise (IntegrityError foreign_key_text)
    else do! modify (set_working (set_users (fun l => l ++ [user]))) in
         ret user.

(** [User(... user_data.model_dump(exclude={"password"}),
    password_hash=hashed_password)] with the column defaults. *)
Definition new_user (user_data : UserCreate) (hashed_password : string)
    (i : UUID) : User :=
  {| user_id := i; user_name := uc_name user_data;
     user_email := uc_email user_data; password_hash := hashed_password;
     role := uc_role user_data;
     organization_id := uc_organization_id user_data;
     is_active := true; user_is_verified := false |}.

Definition create (user_data : UserCreate) : M User :=
  (* Check if user already exists *)
  let! existing_user := get_by_email (uc_email user_data) in
  match existing_user with
  | Some _ => raise (ConflictException "User with this email already exists")
  | None =>
      (* Hash password *)
      let hashed_password := get_password_hash (uc_password user_data) in
      (* Create user *)
      try_except
        (let! db_user := insert_user (new_user user_data hashed_password) in
         do! db_commit in
         ret db_user)
        (fun e =>
           match e with
           | IntegrityError _ =>
               Some (do! db_rollback in
                     raise (ConflictException "User could not be created"))
           | _ => None
           end)
  end.

(** [update_data.model_dump(exclude_unset=True)] is empty. *)
Definition empty_update (update_data : UserUpdate) : bool :=
  match uu_name update_data, uu_email update_data with
  | None, None => true
  | _, _ => false
  end.

(** The row after [.values(update_dict)]. *)
Definition apply_update (update_dict : UserUpdate) (user : User) : User :=
  {| user_id := user_id user;
     user_name := patched_required (uu_name update_dict) (user_name user);
     user_email := patched_required (uu_email update_dict) (user_email user);
     password_hash := password_hash user; role := role user;
     organization_id := organization_id user; is_active := is_active user;
     user_is_verified := user_is_verified user |}.

(** [update(User).where(User.id == user_id).values(update_dict)]: a null
    for a column that is not nullable and an email that another row holds
    are rejected, otherwise the rows with the identifier are rewritten. *)
Definition execute_update (i : UUID) (update_dict : UserUpdate) : M unit :=
  let! rows := gets (fun s => users (working s)) in
  if match uu_name update_dict, uu_email update_dict with
     | Some None, _ | _, Some None => true
     | _, _ => false
     end
  then raise (IntegrityError (violation_text NotNullViolation))
  else
    if match uu_email update_dict with
       | Some (Some mail) =>
           existsb (fun u => bool_decide (user_id u = i)) rows
           && existsb (fun u => String.eqb (user_email u) mail
                                && negb (bool_decide (user_id u = i))) rows
       | _ => false
       end
    then raise (IntegrityError (violation_text UniqueViolation))
    else modify (set_working (set_users
           (map (fun u => if bool_decide (user_id u = i)
                          then apply_update update_dict u else u)))).

Definition update (i : UUID) (update_data : UserUpdate) (current_user : User)
  : M User :=
  (* Check if user exists *)
  let! user := get_by_id i in
  match user with
  | None => raise (NotFoundException "User not found")
  | Some user =>
      (* Check permissions (users can only update themselves unless admin) *)
      if negb (bool_decide (user_id user = user_id current_user))
         && negb (bool_decide (role current_user = ADMIN))
      then raise (UnauthorizedException "Not authorized to update this user")
      else
        (* Check if new email is already taken *)
        do! (match uu_email update_data with
             | Some (Some mail) =>
                 if truthy_str (Some mail)
                    && negb (String.eqb mail (user_email user))
                 then
                   let! existing := get_by_email mail in
                   match existing with
                   | Some existing =>
                       if negb (bool_decide (user_id existing = i))
                       then raise (ConflictException "Email already in use")
                       else ret tt
                   | None => ret tt
                   end
                 else ret tt
             | _ => ret tt
             end) in
        (* Update user *)
        if negb (empty_update update_data)
        then
          do! execute_update i update_data in
          do! db_commit in
          ret (apply_update update_data user)
        else ret user
  end.

Definition set_password_hash (h : string) (user : User) : User :=
  {| user_id := user_id user; user_name := user_name user;
     user_email := user_email user; password_hash := h; role := role user;
     organization_id := organization_id user; is_active := is_active user;
     user_is_verified := user_is_verified user |}.

Definition change_password (i : UUID) (password_data : PasswordChange)
    (current_user : User) : M unit :=
  (* Check if user exists *)
  let! user := get_by_id i in
  match user with
  | None => raise (NotFoundException "User not found")
  | Some user =>
      (* Check permissions (users can only change their own password unless
         admin) *)
      if negb (bool_decide (user_id user = user_id current_user))
         && negb (bool_decide (role current_user = ADMIN))
      then raise (UnauthorizedException
                    "Not authorized to change this user's password")
      else
        (* Verify current password *)
        if negb (verify_password (current_password password_data)
                   (password_hash user))
        then raise (BadRequestException "Current password is incorrect")
        else
          (* Update password *)
          let new_hashed_password :=
            get_password_hash (new_password password_data) in
          do! modify (set_working (set_users
                (map (fun u => if bool_decide (user_id u = i)
                               then set_password_hash new_hashed_password u
                               else u)))) in
          db_commit
  end.

(** The rows that hold a foreign key to [users.id]:
    [taxpayers.created_by], [taxpayers.updated_by], [audit_logs.user_id]. *)
Definition user_referenced (i : UUID) (st : Store) : bool :=
  existsb (fun tp => bool_decide (created_by tp = Some i)
                     || bool_decide (updated_by tp = Some i)) (taxpayers st)
  || existsb (fun entry => bool_decide (log_user_id entry = i)) (audit_logs st).

Definition delete (i : UUID) (current_user : User) : M unit :=
  (* Check if user exists *)
  let! user := get_by_id i in
  match user with
  | None => raise (NotFoundException "User not found")
  | Some user =>
      (* Check permissions (users can only delete themselves unless admin) *)
      if negb (bool_decide (user_id user = user_id current_user))
         && negb (bool_decide (role current_user = ADMIN))
      then raise (UnauthorizedException "Not authorized to delete this user")
      else
        let! st := gets working in
        do! (if user_referenced i st
             then raise (IntegrityError foreign_key_text)
             else modify (set_working (set_users
                    (List.filter (fun u => negb (bool_decide (user_id u = i)))))))
        in
        db_commit
  end.

End Users.
End UserService.

(** ** Sample data for the closed statements *)

Module Sample.

(** The text PostgreSQL gives for the two violations. *)
Definition pg_text (v : Violation) : string :=
  match v with
  | UniqueViolation =>
      "duplicate key value violates unique constraint ix_taxpayers_tin"
  | NotNullViolation =>
      "null value in column full_name violates not-null constraint"
  end.

(** A password hasher that stores the password itself. *)
Definition plain_verify (plain hashed : string) : bool := String.eqb plain hashed.

(** The fields of an input, with its extension map. *)
Definition a_base (name : string) (t : option string)
    (m : option (gmap string Json)) : TaxpayerBase :=
  {| full_name := name; tin := t; bvn := None; nin := None; email := None;
     phone_number := None; address := None; city := None; state := "Lagos";
     tax_type := PAYE; business_name := None; rc_number := None;
     business_type := None; industry := None;
     employment_status := Some "employed"; job_title := None;
     employment_date := None; metadata := m |}.

Definition a_create (name : string) (t : option string) (e : option UUID)
  : TaxpayerCreate :=
  {| create_base := a_base name t (Some ∅); create_employer_id := e |}.

(** A row of the table. *)
Definition a_taxpayer (i : UUID) (name : string) (t : option string)
    (e : option UUID) : Taxpayer :=
  {| id := i; base := a_base name t None; employer_id := e;
     status := Some ACTIVE; is_verified := false; verification_date := None;
     last_filing_date := None; created_by := None; updated_by := None;
     created_at := 100%Z; updated_at := None |}.

Definition a_user (i : UUID) (mail : string) (r : UserRole)
    (org : option UUID) (active : bool) : User :=
  {| user_id := i; user_name := "user"; user_email := mail;
     password_hash := "secret"; role := r; organization_id := org;
     is_active := active; user_is_verified := true |}.

Definition org1 : Organization := {| org_id := 1%N; org_name := "O1" |}.
Definition org2 : Organization := {| org_id := 2%N; org_name := "O2" |}.

Definition admin : User := a_user 10%N "admin@x.ng" ADMIN None true.
Definition accountant1 : User := a_user 11%N "acc1@x.ng" ACCOUNTANT (Some 1%N) true.
Definition employer1 : User := a_user 12%N "emp1@x.ng" EMPLOYER (Some 1%N) true.
Definition organization1 : User :=
  a_user 13%N "org1@x.ng" ORGANIZATION (Some 1%N) true.
Definition accountant_no_org : User :=
  a_user 14%N "acc0@x.ng" ACCOUNTANT None true.
Definition inactive1 : User := a_user 15%N "gone@x.ng" ACCOUNTANT (Some 1%N) false.

Definition store_of (rows : list Taxpayer) : Store :=
  {| users := [admin; accountant1; employer1; organization1;
               accountant_no_org; inactive1];
     organizations := [org1; org2];
     taxpayers := rows; audit_logs := [] |}.

(** A session at the start of a request: nothing is pending, and no
    object has been built in it. *)
Definition session_of (rows : list Taxpayer) : Session :=
  {| durable := store_of rows; working := store_of rows;
     commits := 0; next_uuid := 1000%N; instance_metadata := ∅ |}.

(** A taxpayer of organization 2, one of organization 1, one unassigned. *)
Definition of_org2 : Taxpayer :=
  a_taxpayer 102%N "Bola Two" (Some "2222222222") (Some 2%N).
Definition of_org1 : Taxpayer :=
  a_taxpayer 101%N "Ada One" (Some "1111111111") (Some 1%N).
Definition unassigned : Taxpayer :=
  a_taxpayer 103%N "Chidi None" (Some "3333333333") None.

Definition no_filter : TaxpayerFilter :=
  {| flt_state := None; flt_tax_type := None; flt_status := None;
     flt_employer_id := None; flt_is_verified := None; flt_search := None;
     flt_created_after := None; flt_created_before := None |}.


(** An engine whose [ilike] matches nothing and which puts rows of the
    same time in the order of the table; a day is one unit of time. *)
Definition no_ilike (value pattern : string) : bool := false.
Definition day_start (d : date) : datetime := d.
Definition table_order (a b : Taxpayer) : bool := true.

(** The session in which [admin] has just created a taxpayer, which got
    the identifier 1000; the object is still in the session. *)
Definition after_create : Session :=
  snd (create 500%Z pg_text (a_create "Ada One" (Some "1111111111") None)
         admin (session_of [])).

(** A patch that sends a new name only, and one that sends a null name. *)
Definition rename_patch : TaxpayerUpdate :=
  {| upd_full_name := Some (Some "Ada Renamed"); upd_email := None;
     upd_phone_number := None; upd_address := None; upd_city := None;
     upd_state := None; upd_business_name := None; upd_rc_number := None;
     upd_business_type := None; upd_industry := None;
     upd_employment_status := None; upd_job_title := None;
     upd_employment_date := None; upd_status := None; upd_metadata := None |}.

Definition null_name_patch : TaxpayerUpdate :=
  {| upd_full_name := Some None; upd_email := None;
     upd_phone_number := None; upd_address := None; upd_city := None;
     upd_state := None; upd_business_name := None; upd_rc_number := None;
     upd_business_type := None; upd_industry := None;
     upd_employment_status := None; upd_job_title := None;
     upd_employment_date := None; upd_status := None; upd_metadata := None |}.

(** A token codec that knows one token, the one of [accountant1], and
    adds an expiry claim to the payload; identifiers are read back from
    their decimal text. *)
Definition one_token (claims : gmap string Json) : string := "token-11".

Definition one_payload (token : string) : option (gmap string Json) :=
  if String.eqb token "token-11"
  then Some (<["exp" := JNum 99]> (token_claims accountant1))
  else None.

Definition one_uuid (text : string) : option UUID :=
  if String.eqb text "11" then Some 11%N else None.

(** A hasher that reverses nothing: the hash is the password. *)
Definition plain_hash (password : string) : string := password.

Definition a_new_user : UserCreate :=
  {| uc_name := "Dayo"; uc_email := "dayo@x.ng"; uc_password := "Secret123";
     uc_role := ADMIN; uc_organization_id := Some 1%N |}.

End Sample.

(** ** Notions used in the statements *)

(** A query refines another when it selects only rows the other selects. *)
Definition narrows (q q' : Query) : Prop :=
  ∀ rows x, In x (q rows) → In x (q' rows).

(** The actions of the audit entries of a store, oldest first. *)
Definition actions (st : Store) : list string := map action (audit_logs st).

(** A patch that sends the extension map only. *)
Definition metadata_patch (m : option (gmap string Json)) : TaxpayerUpdate :=
  {| upd_full_name := None; upd_email := None; upd_phone_number := None;
     upd_address := None; upd_city := None; upd_state := None;
     upd_business_name := None; upd_rc_number := None;
     upd_business_type := None; upd_industry := None;
     upd_employment_status := None; upd_job_title := None;
     upd_employment_date := None; upd_status := None;
     upd_metadata := Some m |}.

(** The taxpayers a call of [get_all] lists, none when it raises. *)
Definition listed (r : Outcome (list Taxpayer * nat) * Session)
  : list Taxpayer :=
  match fst r with
  | Return (items, _) => items
  | Raise _ => []
  end.

(** The session after a rollback. *)
Definition rolled_back (s : Session) : Session :=
  {| durable := durable s; working := durable s;
     commits := commits s; next_uuid := next_uuid s;
     instance_metadata := instance_metadata s |}.

(** A list of taxpayers in the order newest first. *)
Fixpoint newest_first (l : list Taxpayer) : Prop :=
  match l with
  | [] => True
  | x :: rest =>
      (∀ y, In y rest → (created_at y <= created_at x)%Z) ∧ newest_first rest
  end.

(** The taxpayers that are not deleted: the last condition of the query
    of [get_stats]. *)
Definition not_deleted (tp : Taxpayer) : bool :=
  match status tp with
  | Some st => negb (bool_decide (st = DELETED))
  | None => false
  end.

(** * Properties *)

(** Unfolding of the monad of the services. *)
Ltac unfold_monad :=
  unfold bind, ret, raise, gets, modify, try_except, with_db in *.

(** ** Authorization policy *)

Lemma role_value_cases (r : UserRole) :
  (r = ADMIN ∧ role_value r = "ADMIN") ∨
  (r = ACCOUNTANT ∧ role_value r = "ACCOUNTANT") ∨
  (r = EMPLOYER ∧ role_value r = "EMPLOYER") ∨
  (r = ORGANIZATION ∧ role_value r = "ORGANIZATION").
Proof. destruct r; simpl; tauto. Qed.

(** What [_check_permissions] decides for the two organization-scoped
    roles: the action is granted exactly when the employer reference of
    the taxpayer equals the organization reference of the actor. *)
Lemma check_permissions_scoped (taxpayer : Taxpayer) (current_user : User)
    (action : string) (s : Session) :
  role current_user = ACCOUNTANT ∨ role current_user = EMPLOYER →
  _check_permissions taxpayer current_user action s =
    if bool_decide (employer_id taxpayer = organization_id current_user)
    then (Return tt, s)
    else (Raise (ForbiddenException
                   ("You don't have permission to " ++ action
                    ++ " this taxpayer")), s).
Proof.
  intros [Hr | Hr]; unfold _check_permissions; rewrite Hr; simpl;
    unfold_monad; case_bool_decide; reflexivity.
Qed.

(** C10: an ACCOUNTANT or EMPLOYER without organization passes the
    ownership check of [update] and [delete] on every taxpayer without
    employer (null equals null, nothing is raised) and is refused with
    Forbidden on every taxpayer that has an employer. *)
Theorem check_permissions_null_organization (taxpayer : Taxpayer)
    (current_user : User) (action : string) (s : Session) :
  role current_user = ACCOUNTANT ∨ role current_user = EMPLOYER →
  organization_id current_user = None →
  (employer_id taxpayer = None →
     _check_permissions taxpayer current_user action s = (Return tt, s)) ∧
  (employer_id taxpayer ≠ None →
     _check_permissions taxpayer current_user action s =
       (Raise (ForbiddenException
                 ("You don't have permission to " ++ action
                  ++ " this taxpayer")), s)).
Proof.
  intros Hrole Horg.
  rewrite (check_permissions_scoped _ _ _ _ Hrole), Horg.
  split; intros He; case_bool_decide; congruence.
Qed.

Lemma check_permissions_null_organization_witness :
  (role Sample.accountant_no_org = ACCOUNTANT
   ∨ role Sample.accountant_no_org = EMPLOYER) ∧
  organization_id Sample.accountant_no_org = None ∧
  _check_permissions Sample.unassigned Sample.accountant_no_org "delete"
    (Sample.session_of [Sample.unassigned])
  = (Return tt, Sample.session_of [Sample.unassigned]).
Proof.
  split; [left; reflexivity |]. split; [reflexivity |].
  apply (check_permissions_null_organization Sample.unassigned
           Sample.accountant_no_org "delete"
           (Sample.session_of [Sample.unassigned]));
    [left; reflexivity | reflexivity | reflexivity].
Defined.

(** ** verify *)

(** C7: on an existing taxpayer, [verify] is refused with Forbidden for
    every role other than ADMIN and ACCOUNTANT.  For an ACCOUNTANT it is
    refused with Forbidden exactly when the taxpayer has an employer that
    differs from the accountant's organization; when the employer equals
    that organization and also when the taxpayer has no employer, it
    succeeds, provided no verification data is given (the route gives
    none). *)
Theorem verify_taxpayer_authorization (utcnow : datetime) (today : date)
    (taxpayer_id : UUID) (current_user : User)
    (verification_data : option (list (string * Json)))
    (s : Session) (taxpayer : Taxpayer) :
  find (fun tp => bool_decide (id tp = taxpayer_id)) (taxpayers (working s))
    = Some taxpayer →
  (role current_user ≠ ADMIN → role current_user ≠ ACCOUNTANT →
     verify_taxpayer utcnow today taxpayer_id current_user verification_data s
     = (Raise (ForbiddenException
                 "You don't have permission to verify taxpayers"), s)) ∧
  (role current_user = ACCOUNTANT →
     (employer_id taxpayer ≠ None →
      employer_id taxpayer ≠ organization_id current_user →
        verify_taxpayer utcnow today taxpayer_id current_user verification_data s
        = (Raise (ForbiddenException
                    "You can only verify taxpayers in your organization"), s)) ∧
     (employer_id taxpayer = None
      ∨ employer_id taxpayer = organization_id current_user →
      truthy_items verification_data = false →
        ∃ row s',
          verify_taxpayer utcnow today taxpayer_id current_user
            verification_data s = (Return row, s')
          ∧ is_verified row = true ∧ id row = id taxpayer)).
Proof.
  intros Hfind. split.
  - intros Hadmin Hacc. unfold verify_taxpayer, get_by_id. unfold_monad.
    rewrite Hfind. destruct (role current_user); simpl; congruence.
  - intros Hacc. split.
    + intros Hsome Hdiff. unfold verify_taxpayer, get_by_id. unfold_monad.
      rewrite Hfind, Hacc. simpl.
      destruct (employer_id taxpayer) as [e |] eqn:He; [| congruence].
      simpl. case_bool_decide; [congruence | reflexivity].
    + intros Hown Hdata.
      assert (Hstore : ∀ row s0,
                store_verification verification_data row s0 = (Return tt, s0)).
      { intros row s0. unfold store_verification.
        destruct verification_data as [[| item items] |];
          [reflexivity | discriminate | reflexivity]. }
      unfold verify_taxpayer, get_by_id. unfold_monad.
      rewrite Hfind, Hacc. simpl.
      destruct (employer_id taxpayer) as [e |] eqn:He; simpl.
      * destruct Hown as [Hown | Hown]; [congruence |].
        case_bool_decide; [| congruence]. simpl. rewrite Hstore.
        unfold flush_taxpayer, db_commit, db_refresh, log_action, uuid4.
        unfold_monad. simpl. eexists _, _. split; [reflexivity |].
        split; reflexivity.
      * rewrite Hstore.
        unfold flush_taxpayer, db_commit, db_refresh, log_action, uuid4.
        unfold_monad. simpl. eexists _, _. split; [reflexivity |].
        split; reflexivity.
Qed.

Lemma verify_taxpayer_authorization_witness :
  find (fun tp => bool_decide (id tp = 101%N))
       (taxpayers (working (Sample.session_of [Sample.of_org1; Sample.of_org2])))
    = Some Sample.of_org1 ∧
  ∃ row s',
    verify_taxpayer 500%Z 20%Z 101%N Sample.accountant1 None
      (Sample.session_of [Sample.of_org1; Sample.of_org2]) = (Return row, s')
    ∧ is_verified row = true ∧ id row = id Sample.of_org1.
Proof.
  split; [reflexivity |].
  apply (verify_taxpayer_authorization 500%Z 20%Z 101%N Sample.accountant1 None
           (Sample.session_of [Sample.of_org1; Sample.of_org2]) Sample.of_org1);
    [reflexivity | reflexivity | right; reflexivity | reflexivity].
Defined.

(** The claim as first stated fails: an accountant of organization 1
    verifies a taxpayer that belongs to no organization. *)
Lemma verify_taxpayer_unassigned_counterexample :
  role Sample.accountant1 = ACCOUNTANT ∧
  employer_id Sample.unassigned ≠ organization_id Sample.accountant1 ∧
  ∃ row s',
    verify_taxpayer 500%Z 20%Z 103%N Sample.accountant1 None
      (Sample.session_of [Sample.unassigned]) = (Return row, s')
    ∧ is_verified row = true.
Proof.
  split; [reflexivity |]. split; [discriminate |].
  eexists _, _. split; [vm_compute; reflexivity | reflexivity].
Qed.

(** ** authenticate *)

(** C8: [authenticate_user] returns none when no user has the email and
    none when the password does not match, whether or not the account is
    active; when the password matches it fails with Unauthorized for an
    inactive account and returns the user for an active one. *)
Theorem authenticate_user_outcomes (verify_password : string → string → bool)
    (login_data : LoginRequest) (s : Session) :
  (find (fun u => String.eqb (user_email u) (login_email login_data))
        (users (working s)) = None →
     AuthService.authenticate_user verify_password login_data s
     = (Return None, s)) ∧
  (∀ user,
     find (fun u => String.eqb (user_email u) (login_email login_data))
          (users (working s)) = Some user →
     (verify_password (login_password login_data) (password_hash user) = false →
        AuthService.authenticate_user verify_password login_data s
        = (Return None, s)) ∧
     (verify_password (login_password login_data) (password_hash user) = true →
      is_active user = false →
        AuthService.authenticate_user verify_password login_data s
        = (Raise (UnauthorizedException "User account is inactive"), s)) ∧
     (verify_password (login_password login_data) (password_hash user) = true →
      is_active user = true →
        AuthService.authenticate_user verify_password login_data s
        = (Return (Some user), s))).
Proof.
  unfold AuthService.authenticate_user. unfold_monad. split.
  - intros ->. reflexivity.
  - intros user ->. repeat split.
    + intros ->. reflexivity.
    + intros -> ->. reflexivity.
    + intros -> ->. reflexivity.
Qed.

Lemma authenticate_user_outcomes_witness :
  find (fun u => String.eqb (user_email u) "acc1@x.ng")
       (users (working (Sample.session_of []))) = Some Sample.accountant1 ∧
  AuthService.authenticate_user Sample.plain_verify
    {| login_email := "acc1@x.ng"; login_password := "secret" |}
    (Sample.session_of [])
  = (Return (Some Sample.accountant1), Sample.session_of []).
Proof.
  split; [reflexivity |].
  apply (authenticate_user_outcomes Sample.plain_verify
           {| login_email := "acc1@x.ng"; login_password := "secret" |}
           (Sample.session_of []));
    reflexivity.
Defined.

(** The claim as first stated fails: for an inactive account and a wrong
    password the result is none, not Unauthorized. *)
Lemma authenticate_user_inactive_counterexample :
  is_active Sample.inactive1 = false ∧
  find (fun u => String.eqb (user_email u) "gone@x.ng")
       (users (working (Sample.session_of []))) = Some Sample.inactive1 ∧
  AuthService.authenticate_user Sample.plain_verify
    {| login_email := "gone@x.ng"; login_password := "wrong" |}
    (Sample.session_of [])
  = (Return None, Sample.session_of []).
Proof. repeat split. Qed.

(** ** create *)

Lemma find_some_of_exists {A} (p : A → bool) (l : list A) (x : A) :
  In x l → p x = true → ∃ y, find p l = Some y.
Proof.
  induction l as [| a l IH]; simpl; [tauto |].
  intros [-> | Hin] Hp.
  - rewrite Hp. eauto.
  - destruct (p a); eauto.
Qed.

(** C9: when the store holds a taxpayer with a tax-id, [create] with the
    same tax-id fails with Conflict and leaves the session as it was: no
    row, no audit entry, no commit.  The tax-id of a [TaxpayerCreate] is
    never the empty string (the schema admits 10 to 12 digits). *)
Theorem create_duplicate_tin_conflict (utcnow : datetime)
    (violation_text : Violation → string) (taxpayer_data : TaxpayerCreate)
    (current_user : User) (s : Session) (existing : Taxpayer) (t : string) :
  In existing (taxpayers (working s)) →
  tin (base existing) = Some t →
  tin (create_base taxpayer_data) = Some t →
  t ≠ "" →
  create utcnow violation_text taxpayer_data current_user s
  = (Raise (ConflictException ("Taxpayer with TIN " ++ t ++ " already exists")),
     s).
Proof.
  intros Hin Htin Hdata Hne.
  destruct (find_some_of_exists
              (fun tp => bool_decide (tin (base tp) = Some t))
              (taxpayers (working s)) existing Hin) as [y Hy].
  { apply bool_decide_eq_true. exact Htin. }
  unfold create, get_by_tin. unfold_monad. rewrite Hdata. simpl.
  destruct (String.eqb_spec t "") as [-> | _]; [congruence |].
  simpl. rewrite Hy. reflexivity.
Qed.

Lemma create_duplicate_tin_conflict_witness :
  In Sample.of_org1 (taxpayers (working (Sample.session_of [Sample.of_org1]))) ∧
  create 500%Z Sample.pg_text
    (Sample.a_create "Ada Again" (Some "1111111111") None) Sample.accountant1
    (Sample.session_of [Sample.of_org1])
  = (Raise (ConflictException "Taxpayer with TIN 1111111111 already exists"),
     Sample.session_of [Sample.of_org1]).
Proof.
  split; [left; reflexivity |].
  apply (create_duplicate_tin_conflict 500%Z Sample.pg_text
           (Sample.a_create "Ada Again" (Some "1111111111") None)
           Sample.accountant1 (Sample.session_of [Sample.of_org1])
           Sample.of_org1 "1111111111");
    [left; reflexivity | reflexivity | reflexivity | discriminate].
Defined.

(** ** Direct reads *)

(** [get_taxpayer] never looks at the caller. *)
Lemma get_taxpayer_ignores_caller (Response : Type)
    (detail_response : Taxpayer → option Response) (taxpayer_id : UUID)
    (caller other : User) (s : Session) :
  Routes.get_taxpayer Response detail_response taxpayer_id caller s
  = Routes.get_taxpayer Response detail_response taxpayer_id other s.
Proof. reflexivity. Qed.

(** C3: the read by id of [get_taxpayer] applies no ownership check.  An
    accountant of organization 1 who fetches a taxpayer of organization 2
    gets what an administrator gets, the record whenever the response can
    be built, and never Forbidden; [search_by_tin] refuses the same caller
    on the same record with status 403. *)
Theorem get_taxpayer_other_organization (Response : Type)
    (model_validate detail_response : Taxpayer → option Response) :
  let s := Sample.session_of [Sample.of_org1; Sample.of_org2] in
  role Sample.accountant1 = ACCOUNTANT ∧
  employer_id Sample.of_org2 ≠ organization_id Sample.accountant1 ∧
  Routes.get_taxpayer Response detail_response 102%N Sample.accountant1 s
  = (match detail_response Sample.of_org2 with
     | Some response => Return response
     | None => Raise (InternalError "Internal Server Error")
     end, s) ∧
  Routes.get_taxpayer Response detail_response 102%N Sample.accountant1 s
  = Routes.get_taxpayer Response detail_response 102%N Sample.admin s ∧
  Routes.search_by_tin Response model_validate "2222222222" Sample.accountant1 s
  = (Raise (HTTPException 403
              "You don't have permission to view this taxpayer"), s).
Proof.
  simpl. split; [reflexivity |]. split; [discriminate |].
  split; [| split; reflexivity].
  unfold Routes.get_taxpayer, get_by_id. unfold_monad. simpl.
  destruct (detail_response Sample.of_org2); reflexivity.
Qed.

(** ** list *)

Lemma In_insert_desc before (tp x : Taxpayer) (l : list Taxpayer) :
  In x (insert_desc before tp l) ↔ x = tp ∨ In x l.
Proof.
  induction l as [| a l IH]; simpl; [intuition |].
  destruct (_ || _); simpl; [intuition |].
  rewrite IH. intuition.
Qed.

Lemma In_order_by before (q : Query) (rows : list Taxpayer) (x : Taxpayer) :
  In x (order_by_created_at_desc before q rows) ↔ In x (q rows).
Proof.
  unfold order_by_created_at_desc.
  induction (q rows) as [| a l IH]; simpl; [tauto |].
  rewrite In_insert_desc, IH. intuition.
Qed.

Lemma length_insert_desc before (tp : Taxpayer) (l : list Taxpayer) :
  length (insert_desc before tp l) = S (length l).
Proof.
  induction l as [| a l IH]; simpl; [reflexivity |].
  destruct (_ || _); simpl; [reflexivity | rewrite IH; reflexivity].
Qed.

Lemma length_order_by before (q : Query) (rows : list Taxpayer) :
  length (order_by_created_at_desc before q rows) = length (q rows).
Proof.
  unfold order_by_created_at_desc.
  induction (q rows) as [| a l IH]; simpl; [reflexivity |].
  rewrite length_insert_desc, IH. reflexivity.
Qed.

Lemma In_where (p : Taxpayer → bool) (q : Query) (rows : list Taxpayer)
    (x : Taxpayer) :
  In x (where_ p q rows) ↔ In x (q rows) ∧ p x = true.
Proof. unfold where_. apply filter_In. Qed.

Lemma narrows_refl (q : Query) : narrows q q.
Proof. intros rows x H. exact H. Qed.

Lemma narrows_where (p : Taxpayer → bool) (q q' : Query) :
  narrows q q' → narrows (where_ p q) q'.
Proof. intros H rows x Hx. apply In_where in Hx. apply H, Hx. Qed.

(** The filters of the caller only narrow the query they are applied to
    (the permission filter being the first one applied). *)
Lemma apply_filters_scoped ilike midnight before (filter_data : TaxpayerFilter)
    (current_user : User) (rows : list Taxpayer) (x : Taxpayer) :
  role current_user = ACCOUNTANT ∨ role current_user = EMPLOYER →
  In x (_apply_filters ilike midnight before select_taxpayer filter_data
          current_user rows) →
  In x rows ∧ employer_id x = organization_id current_user.
Proof.
  intros Hrole Hx. unfold _apply_filters in Hx.
  apply (proj1 (In_order_by _ _ _ _)) in Hx. revert Hx.
  assert (Hadmin :
            negb (String.eqb (role_value (role current_user)) "ADMIN") = true)
    by (destruct Hrole as [-> | ->]; reflexivity).
  assert (Hin : str_in (role_value (role current_user))
                  ["ACCOUNTANT"; "EMPLOYER"] = true)
    by (destruct Hrole as [-> | ->]; reflexivity).
  rewrite Hadmin, Hin.
  match goal with
  | |- In x (?q rows) → _ =>
      assert (Hq : narrows q
                (where_ (fun tp => bool_decide
                           (employer_id tp = organization_id current_user))
                        select_taxpayer))
  end.
  { repeat first
      [ apply narrows_refl
      | match goal with
        | |- narrows (match ?o with _ => _ end) _ => destruct o
        | |- narrows (if ?b then _ else _) _ => destruct b eqn:?
        | |- narrows (where_ _ _) _ => apply narrows_where
        end ]. }
  intros Hx. apply Hq, In_where in Hx. destruct Hx as [Hx Hp].
  split; [exact Hx | apply bool_decide_eq_true in Hp; exact Hp].
Qed.

Lemma In_page {A} (skip limit : nat) (l : list A) (x : A) :
  In x (firstn limit (skipn skip l)) → In x l.
Proof.
  intros H. apply list_elem_of_In. apply list_elem_of_In in H.
  eapply subseteq_drop, subseteq_take, H.
Qed.

Lemma In_page_all {A} (skip limit : nat) (l : list A) (x : A) :
  skip = 0 → (length l ≤ limit)%nat → In x l →
  In x (firstn limit (skipn skip l)).
Proof.
  intros -> Hlen Hx. simpl. rewrite firstn_all2 by exact Hlen. exact Hx.
Qed.

(** For an ACCOUNTANT or an EMPLOYER, [get_all] returns only taxpayers of
    the caller's organization, whatever the filter and the page. *)
Lemma get_all_scoped ilike midnight before (filter_data : TaxpayerFilter)
    (current_user : User) (skip limit : nat) (s : Session) :
  role current_user = ACCOUNTANT ∨ role current_user = EMPLOYER →
  ∃ items total,
    get_all ilike midnight before filter_data current_user skip limit s
    = (Return (items, total), s) ∧
    ∀ x, In x items → employer_id x = organization_id current_user.
Proof.
  intros Hrole. unfold get_all. unfold_monad. eexists _, _.
  split; [reflexivity |].
  intros x Hx. apply In_page in Hx.
  eapply apply_filters_scoped; eauto.
Qed.

(** C2: for a caller whose role is ORGANIZATION the list applies no
    ownership filter.  A user of organization 1 with that role gets from
    [get_all] the taxpayers of every organization: the total is 2 and the
    page holds the taxpayer of organization 2, whatever the engine's
    [ilike], day bounds and order of equal timestamps. *)
Theorem get_all_organization_role (ilike : string → string → bool)
    (midnight : date → datetime) (before : Taxpayer → Taxpayer → bool) :
  let s := Sample.session_of [Sample.of_org1; Sample.of_org2] in
  role Sample.organization1 ≠ ADMIN ∧
  employer_id Sample.of_org2 ≠ organization_id Sample.organization1 ∧
  ∃ items,
    get_all ilike midnight before Sample.no_filter Sample.organization1 0 20 s
    = (Return (items, 2), s) ∧
    In Sample.of_org2 items.
Proof.
  simpl. split; [discriminate |]. split; [discriminate |].
  set (rows := [Sample.of_org1; Sample.of_org2]).
  assert (Hlen : length (_apply_filters ilike midnight before select_taxpayer
                           Sample.no_filter Sample.organization1 rows) = 2).
  { unfold _apply_filters. rewrite length_order_by. reflexivity. }
  unfold get_all. unfold_monad.
  change (taxpayers (working (Sample.session_of rows))) with rows.
  rewrite Hlen. eexists. split; [reflexivity |].
  apply (In_page_all 0 20); [reflexivity | rewrite Hlen; lia |].
  unfold _apply_filters. apply In_order_by. simpl. auto.
Qed.

(** ** Transactions of create and bulk_create *)

(** The four ways [create] ends: the row is committed and the audit
    entry staged behind the commit; an exception before any write; an
    integrity error, after which the transaction is rolled back; a failed
    flush of the audit entry, after the row was committed. *)
Lemma create_outcome (utcnow : datetime) (vt : Violation → string)
    (data : TaxpayerCreate) (u : User) (s : Session) :
  (∃ row s' entry,
     create utcnow vt data u s = (Return row, s') ∧
     not_serializable (DetailsData data) = None ∧
     taxpayers (durable s') = taxpayers (working s) ++ [row] ∧
     taxpayers (working s') = taxpayers (working s) ++ [row] ∧
     audit_logs (durable s') = audit_logs (working s) ∧
     audit_logs (working s') = audit_logs (working s) ++ [entry] ∧
     action entry = "create" ∧ entity_id entry = id row ∧
     commits s' = S (commits s)) ∨
  (∃ e, create utcnow vt data u s = (Raise e, s)
        ∧ flush_failure (Some e) = None) ∨
  (∃ e s',
     create utcnow vt data u s = (Raise e, s') ∧
     flush_failure (Some e) = None ∧
     durable s' = durable s ∧ working s' = durable s ∧
     commits s' = commits s) ∨
  (∃ cause row s',
     create utcnow vt data u s = (Raise (StatementError cause), s') ∧
     not_serializable (DetailsData data) = Some cause ∧
     taxpayers (durable s') = taxpayers (working s) ++ [row] ∧
     working s' = durable s' ∧
     commits s' = S (commits s)).
Proof.
  unfold create, get_by_tin, organization_get_by_id, insert_taxpayer,
    set_metadata_attribute, db_commit, db_refresh, log_action.
  destruct (not_serializable (DetailsData data)) as [cause |] eqn:Hser;
    unfold db_rollback, uuid4; unfold_monad; destruct data as [b e]; simpl;
    repeat (case_match; simplify_eq; simpl in * );
    first [ solve [right; left; eexists; split; reflexivity]
          | solve [right; right; left; eexists _, _; split;
                     [reflexivity | simpl; auto]]
          | solve [right; right; right; eexists _, _, _; split;
                     [reflexivity | simpl; auto]]
          | solve [left; eexists _, _, _; split;
                     [reflexivity | simpl; auto 10]] ].
Qed.

(** C1: [create] commits the new row before it stages the audit entry.
    When it returns, the row is durable and the entry ["create"] is only in
    the open transaction; the request of [create_taxpayer] ends without
    another commit, so the row stays and the entry is lost, whatever the
    response built from the row. *)
Theorem create_taxpayer_audit_not_durable (Response : Type)
    (model_validate : Taxpayer → option Response) :
  let s := Sample.session_of [] in
  let data := Sample.a_create "Ada One" (Some "1111111111") None in
  let inside := create 500%Z Sample.pg_text data Sample.accountant1 s in
  let after := Routes.create_taxpayer 500%Z Sample.pg_text Response
                 model_validate data Sample.accountant1 s in
  ∃ row,
    fst inside = Return row ∧
    taxpayers (durable (snd inside)) = [row] ∧
    actions (durable (snd inside)) = [] ∧
    actions (working (snd inside)) = ["create"] ∧
    commits (snd inside) = 1 ∧
    fst after = match model_validate row with
                | Some response => Return response
                | None => Raise (InternalError "Internal Server Error")
                end ∧
    taxpayers (durable (snd after)) = [row] ∧
    actions (durable (snd after)) = [] ∧
    actions (working (snd after)) = [].
Proof.
  intros s data inside after.
  assert (Hc : ∃ row s1,
            create 500%Z Sample.pg_text data Sample.accountant1 s
            = (Return row, s1) ∧
            taxpayers (durable s1) = [row] ∧ actions (durable s1) = [] ∧
            actions (working s1) = ["create"] ∧ commits s1 = 1).
  { eexists _, _. split; [vm_compute; reflexivity |]. repeat split. }
  destruct Hc as (row & s1 & Hc & Hrows & Hlog & Hopen & Hcommits).
  exists row. subst inside after.
  unfold Routes.create_taxpayer, Routes.require_role, Routes.validated,
    AuthService.require_role.
  unfold_monad. change (session_open s) with s.
  cbn -[create Sample.session_of]. rewrite Hc. simpl.
  repeat (split; [assumption || reflexivity |]).
  destruct (model_validate row); simpl; repeat split; assumption.
Qed.

(** C5: [bulk_create] goes through [create], which commits and writes an
    audit entry of its own.  With two valid items there are three commits,
    the first two between the items, and two audit entries per item. *)
Theorem bulk_create_commits_and_entries :
  let s := Sample.session_of [] in
  let batch := [Sample.a_create "Ada One" (Some "1111111111") None;
                Sample.a_create "Bola Two" (Some "2222222222") None] in
  let r := bulk_create 500%Z Sample.pg_text batch Sample.accountant1 s in
  ∃ row1 row2,
    fst r = Return ([row1; row2], []) ∧
    commits (snd r) = 3 ∧
    actions (durable (snd r))
    = ["create"; "bulk_create"; "create"; "bulk_create"] ∧
    (let first := bulk_create_item 500%Z Sample.pg_text Sample.accountant1
                    (Sample.a_create "Ada One" (Some "1111111111") None)
                    ([], []) s in
     commits (snd first) = 1 ∧ taxpayers (durable (snd first)) = [row1]).
Proof. eexists _, _. vm_compute. repeat split. Qed.

(** ** Failures inside bulk_create *)

(** C6: the items of [bulk_create] are independent only as long as no
    audit entry fails to flush.  In the scenario of three inputs of which
    the second repeats the tax-id of the first, the first and the third
    are created and committed and the second is recorded with its message.
    An item with an employer is committed by [create], but the flush of
    its audit entry fails: the item is recorded as a failure, the valid
    item after it fails as well, the commit at the end raises, and
    [bulk_create] returns nothing although a row is durable; the valid
    item alone is created. *)
Theorem bulk_create_not_independent :
  let s := Sample.session_of [] in
  let first := Sample.a_create "Ada One" (Some "1111111111") None in
  let twin := Sample.a_create "Ada Twin" (Some "1111111111") None in
  let third := Sample.a_create "Chidi Three" (Some "3333333333") None in
  let employed := Sample.a_create "Bola Two" (Some "2222222222") (Some 1%N) in
  let cause := "Object of type UUID is not JSON serializable" in
  (let r := bulk_create 500%Z Sample.pg_text [first; twin; third]
              Sample.accountant1 s in
   ∃ row1 row3,
     fst r = Return ([row1; row3],
                     [(twin, "Taxpayer with TIN 1111111111 already exists")]) ∧
     base row1 = columns (create_base first) ∧
     base row3 = columns (create_base third) ∧
     taxpayers (durable (snd r)) = [row1; row3]) ∧
  (∃ row s',
     bulk_create 500%Z Sample.pg_text [third] Sample.accountant1 s
     = (Return ([row], []), s')) ∧
  (let r := bulk_create 500%Z Sample.pg_text [employed; third]
              Sample.accountant1 s in
   let turns := bulk_create_loop 500%Z Sample.pg_text Sample.accountant1
                  [employed; third] ([], []) None s in
   ∃ row failures,
     fst turns = Return (([], failures), Some cause) ∧
     map fst failures = [employed; third] ∧
     fst r = Raise (PendingRollbackError cause) ∧
     taxpayers (durable (snd r)) = [row] ∧
     base row = columns (create_base employed) ∧
     employer_id row = Some 1%N ∧
     actions (durable (snd r)) = []).
Proof.
  simpl. split; [| split].
  - eexists _, _. vm_compute. repeat split.
  - eexists _, _. vm_compute. reflexivity.
  - eexists _, _. vm_compute. repeat split.
Qed.

(** ** The extension map *)

Lemma find_id_spec (i : UUID) (rows : list Taxpayer) (t : Taxpayer) :
  find (fun tp => bool_decide (id tp = i)) rows = Some t → id t = i.
Proof.
  intros H. apply find_some in H. destruct H as [_ H].
  apply bool_decide_eq_true in H. exact H.
Qed.

Lemma find_flushed (i : UUID) (rows : list Taxpayer) (t t' : Taxpayer) :
  find (fun tp => bool_decide (id tp = i)) rows = Some t →
  id t' = i →
  find (fun tp => bool_decide (id tp = i))
       (map (fun row => if bool_decide (id row = id t') then t' else row) rows)
  = Some t'.
Proof.
  intros Hfind Hid. induction rows as [| a rows IH]; simpl in *; [discriminate |].
  rewrite Hid. destruct (bool_decide (id a = i)) eqn:Ha.
  - simpl. rewrite Hid. rewrite bool_decide_eq_true_2; auto.
  - simpl. rewrite Ha. rewrite Hid in IH. auto.
Qed.

(** On an object that was loaded from the table, [update] stops at the
    copy of the extension map. *)
Lemma update_loaded_object (utcnow : datetime)
    (violation_text : Violation → string) (taxpayer_id : UUID)
    (update_data : TaxpayerUpdate) (current_user : User) (s : Session)
    (taxpayer : Taxpayer) :
  find (fun tp => bool_decide (id tp = taxpayer_id)) (taxpayers (working s))
    = Some taxpayer →
  _check_permissions taxpayer current_user "update" s = (Return tt, s) →
  instance_metadata s !! taxpayer_id = None →
  update utcnow violation_text taxpayer_id update_data current_user s
  = (Raise (AttributeError "'MetaData' object has no attribute 'copy'"), s).
Proof.
  intros Hfind Hperm Hnone. pose proof (find_id_spec _ _ _ Hfind) as Hid.
  unfold update, get_by_id, metadata_attribute. unfold_monad.
  rewrite Hfind, Hperm, Hid, Hnone. reflexivity.
Qed.

(** In a session without objects of its own, [update] raises and leaves
    the session as it was. *)
Lemma update_new_session (utcnow : datetime)
    (violation_text : Violation → string) (taxpayer_id : UUID)
    (update_data : TaxpayerUpdate) (current_user : User) (s : Session) :
  instance_metadata s = ∅ →
  ∃ e, update utcnow violation_text taxpayer_id update_data current_user s
       = (Raise e, s).
Proof.
  intros Hempty.
  unfold update, get_by_id, _check_permissions, metadata_attribute.
  unfold_monad.
  destruct (find _ _) as [t |]; [| eexists; reflexivity].
  destruct (role current_user); simpl; try case_bool_decide; simpl;
    rewrite ?Hempty, ?lookup_empty; eexists; reflexivity.
Qed.

(** C4: [update] does not merge a patch into a stored extension map.  The
    attribute [metadata] it reads is no column: on every taxpayer loaded
    from the table, [update] raises [AttributeError] before it writes
    anything, whatever the patch, and no request to the route
    [update_taxpayer] returns or changes the store.  Only on an object
    built in the same session does the merge of [{a:1}] and [{b:2}] take
    place, on the attribute of that object: no row holds the map, and in
    the next request [update] on the same taxpayer raises again. *)
Theorem update_metadata_not_stored :
  (∀ utcnow violation_text taxpayer_id update_data current_user s taxpayer,
     find (fun tp => bool_decide (id tp = taxpayer_id)) (taxpayers (working s))
       = Some taxpayer →
     _check_permissions taxpayer current_user "update" s = (Return tt, s) →
     instance_metadata s !! taxpayer_id = None →
     update utcnow violation_text taxpayer_id update_data current_user s
     = (Raise (AttributeError "'MetaData' object has no attribute 'copy'"),
        s)) ∧
  (∀ utcnow violation_text (Response : Type)
     (model_validate : Taxpayer → option Response)
     taxpayer_id update_data caller s,
     ∃ e, Routes.update_taxpayer utcnow violation_text Response model_validate
            taxpayer_id update_data caller s
          = (Raise e, session_close s)) ∧
  (let s := Sample.session_of [Sample.of_org1] in
   update 500%Z Sample.pg_text 101%N
     (metadata_patch (Some {[ "b" := JNum 2 ]})) Sample.accountant1 s
   = (Raise (AttributeError "'MetaData' object has no attribute 'copy'"), s)) ∧
  (let data := {| create_base :=
                    Sample.a_base "Ada One" (Some "1111111111")
                      (Some {[ "a" := JNum 1 ]});
                  create_employer_id := None |} in
   let patch := metadata_patch (Some {[ "b" := JNum 2 ]}) in
   ∃ row s1 row' s2,
     create 500%Z Sample.pg_text data Sample.admin (Sample.session_of [])
     = (Return row, s1) ∧
     update 600%Z Sample.pg_text (id row) patch Sample.admin s1
     = (Return row', s2) ∧
     instance_metadata s2 !! id row
     = Some (Some {[ "a" := JNum 1; "b" := JNum 2 ]}) ∧
     metadata (base row') = None ∧
     taxpayers (durable s2) = [row'] ∧
     update 700%Z Sample.pg_text (id row) patch Sample.admin (session_close s2)
     = (Raise (AttributeError "'MetaData' object has no attribute 'copy'"),
        session_close s2)).
Proof.
  split; [| split; [| split]].
  - intros. apply update_loaded_object with (taxpayer := taxpayer); assumption.
  - intros. unfold Routes.update_taxpayer, Routes.require_role,
      AuthService.require_role.
    unfold_monad.
    destruct (negb (str_in _ _)); [eexists; reflexivity |].
    destruct (update_new_session utcnow violation_text taxpayer_id
                update_data caller (session_open s) eq_refl) as [e He].
    rewrite He. eexists; reflexivity.
  - reflexivity.
  - eexists _, _, _, _.
    split; [vm_compute; reflexivity |].
    split; [vm_compute; reflexivity |].
    split; [vm_compute; reflexivity |].
    split; [reflexivity |]. split; [reflexivity |].
    vm_compute. reflexivity.
Qed.

(** * Further properties of the services *)

(** ** Decision table of the permission check *)

Lemma check_permissions_table (taxpayer : Taxpayer) (current_user : User)
    (action : string) (s : Session) :
  _check_permissions taxpayer current_user action s =
    match role current_user with
    | ADMIN => (Return tt, s)
    | ACCOUNTANT | EMPLOYER =>
        if bool_decide (employer_id taxpayer = organization_id current_user)
        then (Return tt, s)
        else (Raise (ForbiddenException
                       ("You don't have permission to " ++ action
                        ++ " this taxpayer")), s)
    | ORGANIZATION =>
        (Raise (ForbiddenException
                  ("Organization users cannot " ++ action ++ " taxpayers")), s)
    end.
Proof.
  unfold _check_permissions. destruct (role current_user); simpl;
    unfold_monad; try case_bool_decide; reflexivity.
Qed.

Lemma check_permissions_pure (taxpayer : Taxpayer) (current_user : User)
    (action : string) (s : Session) :
  snd (_check_permissions taxpayer current_user action s) = s.
Proof.
  rewrite check_permissions_table.
  destruct (role current_user); try case_bool_decide; reflexivity.
Qed.

(** X1: [_check_permissions] grants an action exactly to an ADMIN and to
    an ACCOUNTANT or EMPLOYER whose organization reference equals the
    employer reference of the taxpayer; a user of role ORGANIZATION is
    refused on every taxpayer, those of its own organization included; and
    the check never touches the session. *)
Theorem check_permissions_decision (taxpayer : Taxpayer) (current_user : User)
    (action : string) (s : Session) :
  (_check_permissions taxpayer current_user action s = (Return tt, s)
   ↔ role current_user = ADMIN
     ∨ ((role current_user = ACCOUNTANT ∨ role current_user = EMPLOYER)
        ∧ employer_id taxpayer = organization_id current_user)) ∧
  (role current_user = ORGANIZATION →
     _check_permissions taxpayer current_user action s
     = (Raise (ForbiddenException
                 ("Organization users cannot " ++ action ++ " taxpayers")), s)) ∧
  snd (_check_permissions taxpayer current_user action s) = s.
Proof.
  split; [| split; [| apply check_permissions_pure]].
  - rewrite check_permissions_table.
    destruct (role current_user); try case_bool_decide;
      split; intros Hx; try discriminate; auto;
      destruct Hx as [Ha | [[Hb | Hb] He]]; try discriminate; congruence.
  - intros Hr. rewrite check_permissions_table, Hr. reflexivity.
Qed.

(** ** Absent identifiers *)

(** X2: on an identifier no taxpayer has, [update], [delete] and
    [verify_taxpayer] fail with NotFound before any permission check, and
    leave the session as it was. *)
Theorem absent_taxpayer_not_found (utcnow : datetime) (today : date)
    (violation_text : Violation → string) (taxpayer_id : UUID)
    (current_user : User) (update_data : TaxpayerUpdate) (soft_delete : bool)
    (verification_data : option (list (string * Json))) (s : Session) :
  find (fun tp => bool_decide (id tp = taxpayer_id)) (taxpayers (working s))
    = None →
  let not_found :=
    NotFoundException ("Taxpayer " ++ str_uuid taxpayer_id ++ " not found") in
  update utcnow violation_text taxpayer_id update_data current_user s
    = (Raise not_found, s) ∧
  delete utcnow taxpayer_id current_user soft_delete s = (Raise not_found, s) ∧
  verify_taxpayer utcnow today taxpayer_id current_user verification_data s
    = (Raise not_found, s).
Proof.
  intros Hfind. unfold update, delete, verify_taxpayer, get_by_id.
  unfold_monad. rewrite Hfind. auto.
Qed.

Lemma absent_taxpayer_not_found_witness :
  delete 500%Z 999%N Sample.organization1 true
    (Sample.session_of [Sample.of_org1])
  = (Raise (NotFoundException "Taxpayer 999 not found"),
     Sample.session_of [Sample.of_org1]).
Proof.
  apply (absent_taxpayer_not_found 500%Z 20%Z Sample.pg_text 999%N
           Sample.organization1 (metadata_patch None) true None
           (Sample.session_of [Sample.of_org1])).
  reflexivity.
Defined.

(** ** delete *)



Lemma find_deleted (i : UUID) (rows : list Taxpayer) (t : Taxpayer) :
  id t = i →
  find (fun tp => bool_decide (id tp = i))
       (filter (fun row => id row ≠ id t) rows) = None.
Proof.
  intros Hid. induction rows as [| a rows IH]; [reflexivity |].
  rewrite filter_cons. destruct (decide (id a ≠ id t)) as [Hne | Heq].
  - simpl. rewrite bool_decide_eq_false_2; [exact IH | congruence].
  - exact IH.
Qed.

(** X4: a hard delete that passes the permission check removes every row
    with the identifier and no other row, so that [get_by_id] finds
    nothing afterwards; it commits once, together with an audit entry
    ["hard_delete"] that names the removed identifier. *)
Theorem hard_delete_removes (utcnow : datetime) (taxpayer_id : UUID)
    (current_user : User) (s : Session) (taxpayer : Taxpayer) :
  find (fun tp => bool_decide (id tp = taxpayer_id)) (taxpayers (working s))
    = Some taxpayer →
  _check_permissions taxpayer current_user "delete" s = (Return tt, s) →
  ∃ s' entry,
    delete utcnow taxpayer_id current_user false s = (Return tt, s') ∧
    commits s' = S (commits s) ∧
    working s' = durable s' ∧
    get_by_id taxpayer_id s' = (Return None, s') ∧
    (∀ x, In x (taxpayers (durable s'))
          ↔ In x (taxpayers (working s)) ∧ id x ≠ taxpayer_id) ∧
    audit_logs (durable s') = audit_logs (working s) ++ [entry] ∧
    action entry = "hard_delete" ∧ entity_id entry = taxpayer_id.
Proof.
  intros Hfind Hperm. pose proof (find_id_spec _ _ _ Hfind) as Hid.
  unfold delete, get_by_id. unfold_monad. rewrite Hfind, Hperm.
  unfold db_delete, log_action, uuid4, db_commit. unfold_monad. simpl.
  eexists _, _. split; [reflexivity |]. simpl.
  split; [reflexivity |]. split; [reflexivity |].
  split; [rewrite (find_deleted _ _ _ Hid); reflexivity |].
  split; [| auto].
  intros x. rewrite <- !list_elem_of_In, list_elem_of_filter, Hid. tauto.
Qed.

Lemma hard_delete_removes_witness :
  ∃ s' entry,
    delete 500%Z 101%N Sample.admin false
      (Sample.session_of [Sample.of_org1; Sample.of_org2]) = (Return tt, s') ∧
    commits s' = 1 ∧
    working s' = durable s' ∧
    get_by_id 101%N s' = (Return None, s') ∧
    (∀ x, In x (taxpayers (durable s'))
          ↔ In x [Sample.of_org1; Sample.of_org2] ∧ id x ≠ 101%N) ∧
    audit_logs (durable s') = [] ++ [entry] ∧
    action entry = "hard_delete" ∧ entity_id entry = 101%N.
Proof.
  apply (hard_delete_removes 500%Z 101%N Sample.admin
           (Sample.session_of [Sample.of_org1; Sample.of_org2]) Sample.of_org1);
    reflexivity.
Defined.

(** X5: [delete] ends in one of two ways: it returns after exactly one
    commit with nothing left pending, or it raises NotFound or Forbidden
    and the session is as it was. *)
Theorem delete_commits_or_leaves (utcnow : datetime) (taxpayer_id : UUID)
    (current_user : User) (soft_delete : bool) (s : Session) :
  (∃ s', delete utcnow taxpayer_id current_user soft_delete s = (Return tt, s') ∧
         commits s' = S (commits s) ∧ working s' = durable s') ∨
  (∃ detail, delete utcnow taxpayer_id current_user soft_delete s
             = (Raise (NotFoundException detail), s)) ∨
  (∃ detail, delete utcnow taxpayer_id current_user soft_delete s
             = (Raise (ForbiddenException detail), s)).
Proof.
  unfold delete, get_by_id. unfold_monad.
  destruct (find _ _) as [taxpayer |]; [| right; left; eauto].
  rewrite check_permissions_table.
  destruct (role current_user); try case_bool_decide;
    try (right; right; eexists; reflexivity);
    left; destruct soft_delete;
    unfold flush_taxpayer, db_delete, log_action, uuid4, db_commit;
    unfold_monad; simpl; eexists; (split; [reflexivity | auto]).
Qed.

(** ** list *)

(** The status condition of [_apply_filters]: with a status filter the
    rows of that status, without one the rows whose status is neither null
    nor DELETED. *)
Lemma apply_filters_status ilike midnight before (filter_data : TaxpayerFilter)
    (current_user : User) (rows : list Taxpayer) (x : Taxpayer) :
  In x (_apply_filters ilike midnight before select_taxpayer filter_data
          current_user rows) →
  In x rows ∧
  match flt_status filter_data with
  | Some st => status x = Some st
  | None => ∃ st, status x = Some st ∧ st ≠ DELETED
  end.
Proof.
  intros Hx. unfold _apply_filters in Hx.
  apply (proj1 (In_order_by _ _ _ _)) in Hx.
  destruct filter_data as [fst_ fty fstatus femp fver fsearch fafter fbefore].
  simpl in *.
  repeat match type of Hx with
  | In _ (where_ _ _ _) =>
      apply (proj1 (In_where _ _ _ _)) in Hx;
      let Hp := fresh "Hp" in destruct Hx as [Hx Hp]
  | In _ ((match ?o with _ => _ end) _) => destruct o eqn:?
  end;
  (split; [exact Hx |]);
  try (match goal with
       | H : bool_decide (status x = Some _) = true |- _ =>
           apply bool_decide_eq_true in H; exact H
       end);
  match goal with
  | H : match status x with _ => _ end = true |- _ =>
      destruct (status x) as [st |]; [| discriminate];
      exists st; split; [reflexivity |];
      apply negb_true_iff, bool_decide_eq_false in H; exact H
  end.
Qed.

Lemma listed_status ilike midnight before (filter_data : TaxpayerFilter)
    (current_user : User) (skip limit : nat) (s : Session) (x : Taxpayer) :
  In x (listed (get_all ilike midnight before filter_data current_user skip limit s)) →
  In x (taxpayers (working s)) ∧
  match flt_status filter_data with
  | Some st => status x = Some st
  | None => ∃ st, status x = Some st ∧ st ≠ DELETED
  end.
Proof.
  unfold get_all, listed. unfold_monad. simpl. intros Hx.
  apply In_page in Hx. eapply apply_filters_status, Hx.
Qed.



(** X7: a soft-deleted taxpayer leaves the default list of every caller,
    on every page, and is still returned, marked DELETED, by the read by
    identifier. *)
Theorem soft_deleted_hidden_from_list (utcnow : datetime)
    (ilike : string → string → bool) (midnight : date → datetime)
    (before : Taxpayer → Taxpayer → bool)
    (taxpayer_id : UUID) (current_user : User) (s : Session)
    (taxpayer : Taxpayer) :
  find (fun tp => bool_decide (id tp = taxpayer_id)) (taxpayers (working s))
    = Some taxpayer →
  _check_permissions taxpayer current_user "delete" s = (Return tt, s) →
  ∃ s' row,
    delete utcnow taxpayer_id current_user true s = (Return tt, s') ∧
    get_by_id taxpayer_id s' = (Return (Some row), s') ∧
    status row = Some DELETED ∧
    ∀ filter_data caller skip limit x,
      flt_status filter_data = None →
      In x (listed (get_all ilike midnight before filter_data caller skip limit s')) →
      id x ≠ taxpayer_id.
Proof.
  intros Hfind Hperm. pose proof (find_id_spec _ _ _ Hfind) as Hid.
  unfold delete, get_by_id. unfold_monad. rewrite Hfind, Hperm.
  unfold flush_taxpayer, log_action, uuid4, db_commit. unfold_monad. simpl.
  eexists _, (stamp utcnow current_user (set_status (Some DELETED) taxpayer)).
  split; [reflexivity |]. simpl.
  split.
  { f_equal. f_equal.
    match goal with
    | |- _ = Some ?r => apply (find_flushed _ _ _ r Hfind)
    end. exact Hid. }
  split; [reflexivity |].
  intros filter_data caller skip limit x Hnone Hx.
  apply listed_status in Hx. rewrite Hnone in Hx. simpl in Hx.
  destruct Hx as [Hin (st & Hst & Hnd)].
  apply in_map_iff in Hin. destruct Hin as (row & Hrow & _).
  intros Hx. case_bool_decide as Hb; subst x.
  - simpl in Hst. congruence.
  - simpl in Hid. congruence.
Qed.

Lemma soft_deleted_hidden_from_list_witness :
  ∃ s' row,
    delete 500%Z 101%N Sample.accountant1 true
      (Sample.session_of [Sample.of_org1; Sample.of_org2]) = (Return tt, s') ∧
    get_by_id 101%N s' = (Return (Some row), s') ∧
    status row = Some DELETED ∧
    ∀ filter_data caller skip limit x,
      flt_status filter_data = None →
      In x (listed (get_all Sample.no_ilike Sample.day_start
                      Sample.table_order filter_data caller
                      skip limit s')) →
      id x ≠ 101%N.
Proof.
  apply (soft_deleted_hidden_from_list 500%Z Sample.no_ilike Sample.day_start
           Sample.table_order
           101%N Sample.accountant1
           (Sample.session_of [Sample.of_org1; Sample.of_org2]) Sample.of_org1);
    reflexivity.
Defined.

(** X8: [get_all] reads only.  The total counts the whole selection and
    does not depend on the page; the page has [min limit (total - skip)]
    rows. *)
Theorem get_all_page_length (ilike : string → string → bool)
    (midnight : date → datetime) (before : Taxpayer → Taxpayer → bool)
    (filter_data : TaxpayerFilter)
    (current_user : User) (s : Session) :
  ∃ total,
    ∀ skip limit, ∃ items,
      get_all ilike midnight before filter_data current_user skip limit s
      = (Return (items, total), s) ∧
      length items = Nat.min limit (total - skip).
Proof.
  unfold get_all. unfold_monad. eexists. intros skip limit. eexists.
  split; [reflexivity |].
  rewrite length_firstn, length_skipn. reflexivity.
Qed.

Lemma newest_first_insert before (tp : Taxpayer) (l : list Taxpayer) :
  newest_first l → newest_first (insert_desc before tp l).
Proof.
  induction l as [| a l IH]; simpl; [tauto |].
  intros [Ha Hl].
  destruct ((created_at a <? created_at tp)%Z
            || ((created_at a =? created_at tp)%Z && before tp a)) eqn:Hle;
    simpl.
  - assert (Hat : (created_at a <= created_at tp)%Z).
    { apply orb_true_iff in Hle. destruct Hle as [Hlt | Heq].
      - apply Z.ltb_lt in Hlt. lia.
      - apply andb_true_iff in Heq. destruct Heq as [Heq _].
        apply Z.eqb_eq in Heq. lia. }
    split; [| tauto].
    intros y [<- | Hy]; [exact Hat |]. specialize (Ha y Hy). lia.
  - apply orb_false_iff in Hle. destruct Hle as [Hlt _].
    apply Z.ltb_ge in Hlt. split; [| auto].
    intros y Hy. apply In_insert_desc in Hy.
    destruct Hy as [-> | Hy]; [lia | auto].
Qed.

Lemma newest_first_skipn (n : nat) (l : list Taxpayer) :
  newest_first l → newest_first (skipn n l).
Proof.
  revert l. induction n as [| n IH]; intros [| a l]; simpl; auto.
  intros [_ Hl]. auto.
Qed.

Lemma newest_first_firstn (n : nat) (l : list Taxpayer) :
  newest_first l → newest_first (firstn n l).
Proof.
  revert l. induction n as [| n IH]; intros [| a l]; simpl; auto.
  intros [Ha Hl]. split; [| auto].
  intros y Hy. apply Ha. apply (In_page 0 n). exact Hy.
Qed.

(** X9: every page of the list is in the order newest first: a row never
    comes before a row that was created later. *)
Theorem get_all_newest_first (ilike : string → string → bool)
    (midnight : date → datetime) (before : Taxpayer → Taxpayer → bool)
    (filter_data : TaxpayerFilter)
    (current_user : User) (skip limit : nat) (s : Session) :
  newest_first
    (listed (get_all ilike midnight before filter_data current_user skip limit s)).
Proof.
  unfold get_all, listed. unfold_monad. simpl.
  apply newest_first_firstn, newest_first_skipn.
  unfold _apply_filters, order_by_created_at_desc.
  match goal with
  | |- newest_first (fold_right (insert_desc _) [] ?q) => generalize q
  end.
  intros l. induction l as [| a l IH]; simpl;
    [exact I | apply newest_first_insert, IH].
Qed.

(** ** create *)

(** X10: [create] returns only for an input without employment date and
    without employer.  The row it returns has the identifier the session
    drew, the columns of the input, no employer, the status PENDING, is
    not verified, carries the actor as creator and as last editor and the
    time of the request, and is committed; the extension map of the input
    is kept on the object of this session and in no column. *)
Theorem create_row_shape (utcnow : datetime)
    (violation_text : Violation → string) (taxpayer_data : TaxpayerCreate)
    (current_user : User) (s s' : Session) (row : Taxpayer) :
  create utcnow violation_text taxpayer_data current_user s = (Return row, s') →
  employment_date (create_base taxpayer_data) = None ∧
  create_employer_id taxpayer_data = None ∧
  id row = next_uuid s ∧
  base row = columns (create_base taxpayer_data) ∧
  employer_id row = None ∧
  status row = Some PENDING ∧
  is_verified row = false ∧ verification_date row = None ∧
  created_by row = Some (user_id current_user) ∧
  updated_by row = Some (user_id current_user) ∧
  created_at row = utcnow ∧
  In row (taxpayers (durable s')) ∧
  instance_metadata s' !! id row = Some (metadata (create_base taxpayer_data)).
Proof.
  unfold create, get_by_tin, organization_get_by_id, insert_taxpayer,
    set_metadata_attribute, db_commit, db_rollback, db_refresh, log_action,
    not_serializable, uuid4.
  unfold_monad. destruct taxpayer_data as [b e]. simpl. intros H.
  repeat (case_match; simplify_eq; simpl in * );
    repeat match goal with
           | H : truthy_opt ?o = false |- _ => destruct o; [discriminate |]; clear H
           end;
    simpl in *; simplify_eq;
    repeat split; try reflexivity;
    first [ apply in_app_iff; right; left; reflexivity
          | apply lookup_insert_eq ].
Qed.

Lemma create_row_shape_witness :
  ∃ row s',
    create 500%Z Sample.pg_text
      (Sample.a_create "Ada One" (Some "1111111111") None)
      Sample.accountant1 (Sample.session_of []) = (Return row, s') ∧
    id row = 1000%N ∧ status row = Some PENDING ∧ is_verified row = false ∧
    created_by row = Some 11%N.
Proof.
  eexists _, _. split; [vm_compute; reflexivity |].
  destruct (create_row_shape 500%Z Sample.pg_text
              (Sample.a_create "Ada One" (Some "1111111111") None)
              Sample.accountant1 (Sample.session_of []) _ _ eq_refl)
    as (_ & _ & H1 & _ & _ & H2 & H3 & _ & H4 & _).
  exact (conj H1 (conj H2 (conj H3 H4))).
Defined.

(** X11: when no taxpayer holds the tax-id of the input, [create] checks
    the requested employer before it writes: an organization that does not
    exist gives BadRequest, and an existing organization that is not the
    actor's own gives Forbidden unless the actor is an ADMIN.  Both leave
    the session as it was. *)
Theorem create_employer_checks (utcnow : datetime)
    (violation_text : Violation → string) (taxpayer_data : TaxpayerCreate)
    (current_user : User) (s : Session) (e : UUID) :
  (∀ t, tin (create_base taxpayer_data) = Some t →
        find (fun tp => bool_decide (tin (base tp) = Some t))
             (taxpayers (working s)) = None) →
  create_employer_id taxpayer_data = Some e →
  (find (fun org => bool_decide (org_id org = e)) (organizations (working s))
     = None →
   create utcnow violation_text taxpayer_data current_user s
   = (Raise (BadRequestException
               ("Organization " ++ str_uuid e ++ " not found")), s)) ∧
  (∀ org,
     find (fun org => bool_decide (org_id org = e)) (organizations (working s))
       = Some org →
     organization_id current_user ≠ Some e →
     role current_user ≠ ADMIN →
     create utcnow violation_text taxpayer_data current_user s
     = (Raise (ForbiddenException
                 "You can only assign taxpayers to your own organization"), s)).
Proof.
  intros Htin He.
  assert (Hfirst :
    (match tin (create_base taxpayer_data) with
     | Some t =>
         if truthy_str (Some t) then
           let! existing := get_by_tin t in
           match existing with
           | Some _ =>
               raise (ConflictException
                        ("Taxpayer with TIN " ++ t ++ " already exists"))
           | None => ret tt
           end
         else ret tt
     | None => ret tt
     end) s = (Return tt, s)).
  { destruct (tin (create_base taxpayer_data)) as [t |]; [| reflexivity].
    destruct (truthy_str (Some t)); [| reflexivity].
    unfold get_by_tin. unfold_monad. rewrite (Htin t eq_refl). reflexivity. }
  split.
  - intros Horg. unfold create. unfold bind at 1. rewrite Hfirst.
    unfold bind at 1. rewrite He. unfold organization_get_by_id.
    unfold_monad. rewrite Horg. reflexivity.
  - intros org Horg Hown Hadmin. unfold create. unfold bind at 1.
    rewrite Hfirst. unfold bind at 1. rewrite He.
    unfold organization_get_by_id. unfold_monad. rewrite Horg.
    rewrite bool_decide_eq_false_2 by exact Hown.
    destruct (role current_user); simpl; congruence.
Qed.

Lemma create_employer_checks_witness :
  create 500%Z Sample.pg_text
    (Sample.a_create "Ada One" (Some "1111111111") (Some 2%N))
    Sample.accountant1 (Sample.session_of [])
  = (Raise (ForbiddenException
              "You can only assign taxpayers to your own organization"),
     Sample.session_of []).
Proof.
  apply (create_employer_checks 500%Z Sample.pg_text
           (Sample.a_create "Ada One" (Some "1111111111") (Some 2%N))
           Sample.accountant1 (Sample.session_of []) 2%N
           ltac:(intros t _; reflexivity) eq_refl)
    with (org := Sample.org2);
    [reflexivity | discriminate | discriminate].
Defined.

(** X12: for an input without tax-id and without employer, whatever the
    store holds and whoever the actor is, [create] appends the row and
    commits it: null tax-ids never collide.  Without an employment date it
    then returns the row; with one, the flush of the audit entry fails
    after the commit and [create] raises [StatementError], leaving the row
    durable without an audit entry. *)
Theorem create_without_tin (utcnow : datetime)
    (violation_text : Violation → string) (taxpayer_data : TaxpayerCreate)
    (current_user : User) (s : Session) :
  tin (create_base taxpayer_data) = None →
  create_employer_id taxpayer_data = None →
  (employment_date (create_base taxpayer_data) = None →
   ∃ row s',
     create utcnow violation_text taxpayer_data current_user s
     = (Return row, s') ∧
     taxpayers (durable s') = taxpayers (working s) ++ [row] ∧
     commits s' = S (commits s)) ∧
  (employment_date (create_base taxpayer_data) ≠ None →
   ∃ row s',
     create utcnow violation_text taxpayer_data current_user s
     = (Raise (StatementError "Object of type date is not JSON serializable"),
        s') ∧
     taxpayers (durable s') = taxpayers (working s) ++ [row] ∧
     audit_logs (durable s') = audit_logs (working s) ∧
     working s' = durable s' ∧
     commits s' = S (commits s)).
Proof.
  intros Htin He.
  unfold create, insert_taxpayer, set_metadata_attribute, db_commit,
    db_refresh, log_action, not_serializable, db_rollback, uuid4.
  unfold_monad. rewrite Htin, He. simpl. rewrite Htin. simpl.
  split; intros Hd.
  - rewrite Hd. simpl. eexists _, _. split; [reflexivity |]. simpl. auto.
  - destruct (employment_date (create_base taxpayer_data)); [| congruence].
    simpl. eexists _, _. split; [reflexivity |]. simpl. auto.
Qed.

Lemma create_without_tin_witness :
  ∃ row s',
    create 500%Z Sample.pg_text (Sample.a_create "No Tin" None None)
      Sample.employer1 (Sample.session_of [Sample.unassigned])
    = (Return row, s') ∧
    taxpayers (durable s') = [Sample.unassigned] ++ [row] ∧
    commits s' = 1.
Proof.
  apply (create_without_tin 500%Z Sample.pg_text
           (Sample.a_create "No Tin" None None) Sample.employer1
           (Sample.session_of [Sample.unassigned]));
    reflexivity.
Defined.

Lemma tin_not_taken (b : TaxpayerBase) (rows : list Taxpayer) :
  (∀ t, tin b = Some t →
        find (fun tp => bool_decide (tin (base tp) = Some t)) rows = None) →
  tin_taken (tin b) rows = false.
Proof.
  intros H. unfold tin_taken. destruct (tin b) as [t |]; [| reflexivity].
  specialize (H t eq_refl).
  induction rows as [| a rows IH]; simpl in *; [reflexivity |].
  destruct (bool_decide (tin (base a) = Some t)); [discriminate | auto].
Qed.

(** A taxpayer registered with an employer is committed, and then
    [create] fails.  When no taxpayer holds the tax-id of the input, the
    organization exists and is the actor's own or the actor is an ADMIN,
    the row is written with that employer and committed; the flush of the
    audit entry cannot serialise the payload, so [create] raises
    [StatementError] and leaves the row durable without an audit entry. *)
Lemma create_with_employer_fails (utcnow : datetime)
    (violation_text : Violation → string) (taxpayer_data : TaxpayerCreate)
    (current_user : User) (s : Session) (e : UUID) (org : Organization) :
  (∀ t, tin (create_base taxpayer_data) = Some t →
        find (fun tp => bool_decide (tin (base tp) = Some t))
             (taxpayers (working s)) = None) →
  create_employer_id taxpayer_data = Some e →
  find (fun org => bool_decide (org_id org = e)) (organizations (working s))
    = Some org →
  organization_id current_user = Some e ∨ role current_user = ADMIN →
  ∃ cause row s',
    create utcnow violation_text taxpayer_data current_user s
    = (Raise (StatementError cause), s') ∧
    not_serializable (DetailsData taxpayer_data) = Some cause ∧
    employer_id row = Some e ∧
    base row = columns (create_base taxpayer_data) ∧
    taxpayers (durable s') = taxpayers (working s) ++ [row] ∧
    audit_logs (durable s') = audit_logs (working s) ∧
    working s' = durable s' ∧
    commits s' = S (commits s).
Proof.
  intros Htin He Horg Hown.
  pose proof (tin_not_taken _ _ Htin) as Hfree.
  assert (Hfirst :
    (match tin (create_base taxpayer_data) with
     | Some t =>
         if truthy_str (Some t) then
           let! existing := get_by_tin t in
           match existing with
           | Some _ =>
               raise (ConflictException
                        ("Taxpayer with TIN " ++ t ++ " already exists"))
           | None => ret tt
           end
         else ret tt
     | None => ret tt
     end) s = (Return tt, s)).
  { destruct (tin (create_base taxpayer_data)) as [t |]; [| reflexivity].
    destruct (truthy_str (Some t)); [| reflexivity].
    unfold get_by_tin. unfold_monad. rewrite (Htin t eq_refl). reflexivity. }
  assert (Hgate : negb (bool_decide (organization_id current_user = Some e))
                  && negb (String.eqb (role_value (role current_user)) "ADMIN")
                  = false).
  { destruct Hown as [Hown | Hown].
    - rewrite bool_decide_eq_true_2 by exact Hown. reflexivity.
    - rewrite Hown. apply andb_false_r. }
  assert (Hser : ∃ cause, not_serializable (DetailsData taxpayer_data)
                          = Some cause).
  { unfold not_serializable. rewrite He.
    destruct (truthy_opt (employment_date _)); eexists; reflexivity. }
  destruct Hser as [cause Hser].
  exists cause.
  unfold create. unfold bind at 1. rewrite Hfirst.
  unfold bind at 1. rewrite He. unfold organization_get_by_id.
  unfold_monad. rewrite Horg, Hgate.
  unfold insert_taxpayer, set_metadata_attribute, db_commit, db_refresh,
    log_action, uuid4.
  unfold_monad. cbn -[not_serializable tin_taken]. rewrite Hfree, Hser.
  unfold db_rollback. unfold_monad. simpl.
  eexists _, _. split; [reflexivity |]. simpl. repeat split; reflexivity.
Qed.

Lemma create_with_employer_fails_example :
  ∃ cause row s',
    create 500%Z Sample.pg_text
      (Sample.a_create "Ada One" (Some "1111111111") (Some 1%N))
      Sample.accountant1 (Sample.session_of [])
    = (Raise (StatementError cause), s') ∧
    cause = "Object of type UUID is not JSON serializable" ∧
    employer_id row = Some 1%N ∧
    taxpayers (durable s') = [row] ∧
    audit_logs (durable s') = [] ∧
    commits s' = 1.
Proof.
  destruct (create_with_employer_fails 500%Z Sample.pg_text
              (Sample.a_create "Ada One" (Some "1111111111") (Some 1%N))
              Sample.accountant1 (Sample.session_of []) 1%N Sample.org1
              ltac:(intros t _; reflexivity) eq_refl eq_refl
              ltac:(left; reflexivity))
    as (cause & row & s' & Hc & Hser & He & _ & Hrows & Hlog & _ & Hn).
  exists cause, row, s'. split; [exact Hc |].
  split; [injection Hser as <-; reflexivity |].
  split; [exact He |]. split; [exact Hrows |]. split; [exact Hlog | exact Hn].
Defined.

(** ** bulk_create *)

Lemma bulk_create_attempt_commits utcnow vt u data acc s :
  not_serializable (DetailsData data) = None →
  ∃ acc' e s',
    bulk_create_attempt utcnow vt u data acc s = (Return (acc', e), s') ∧
    flush_failure e = None ∧
    commits s' + length (fst acc) = commits s + length (fst acc').
Proof.
  intros Hser. unfold bulk_create_attempt.
  destruct (create_outcome utcnow vt data u s)
    as [(row & s' & entry & Hc & _ & _ & _ & _ & _ & _ & _ & Hn)
       | [(e & Hc & He)
         | [(e & s' & Hc & He & _ & _ & Hn)
           | (cause & row & s' & Hc & Hcause & _)]]].
  - unfold log_action. rewrite Hser. unfold uuid4. unfold_monad.
    rewrite Hc. simpl. eexists _, _, _. split; [reflexivity |]. simpl.
    split; [reflexivity |]. rewrite length_app. simpl. lia.
  - unfold_monad. rewrite Hc. simpl. eexists _, _, _.
    split; [reflexivity |]. split; [exact He | simpl; lia].
  - unfold_monad. rewrite Hc. simpl. eexists _, _, _.
    split; [reflexivity |]. split; [exact He | simpl; lia].
  - congruence.
Qed.

Lemma bulk_create_loop_commits utcnow vt u datas :
  Forall (fun data => not_serializable (DetailsData data) = None) datas →
  ∀ acc s, ∃ acc' s',
    bulk_create_loop utcnow vt u datas acc None s = (Return (acc', None), s') ∧
    commits s' + length (fst acc) = commits s + length (fst acc').
Proof.
  induction 1 as [| data rest Hser _ IH]; intros acc s; simpl.
  - exists acc, s. split; reflexivity.
  - unfold_monad.
    destruct (bulk_create_attempt_commits utcnow vt u data acc s Hser)
      as (acc1 & e & s1 & Hi & He & Hn1). rewrite Hi. simpl. rewrite He.
    destruct (IH acc1 s1) as (acc' & s' & Hl & Hn).
    exists acc', s'. split; [exact Hl | lia].
Qed.

(** X13: on a batch whose items have neither employment date nor
    employer, [bulk_create] returns, and it has issued one commit for
    every item it created and one more at the end; a failed item adds
    none. *)
Theorem bulk_create_commit_count (utcnow : datetime)
    (violation_text : Violation → string)
    (taxpayers_data : list TaxpayerCreate) (current_user : User) (s : Session) :
  Forall (fun data => employment_date (create_base data) = None
                      ∧ create_employer_id data = None) taxpayers_data →
  ∃ successes failures s',
    bulk_create utcnow violation_text taxpayers_data current_user s
    = (Return (successes, failures), s') ∧
    commits s' = commits s + length successes + 1.
Proof.
  intros Hplain. unfold bulk_create. unfold_monad.
  destruct (bulk_create_loop_commits utcnow violation_text current_user
              taxpayers_data) with (acc := ([] : list Taxpayer,
                                            [] : list (TaxpayerCreate * string)))
                                   (s := s)
    as ([succ fail] & s1 & Hl & Hn).
  { eapply Forall_impl; [exact Hplain |]. intros data [Hd He]. simpl.
    rewrite Hd, He. reflexivity. }
  rewrite Hl. unfold db_commit. unfold_monad. simpl in *.
  eexists _, _, _. split; [reflexivity |]. simpl. lia.
Qed.

Lemma bulk_create_commit_count_witness :
  ∃ successes failures s',
    bulk_create 500%Z Sample.pg_text
      [Sample.a_create "Ada One" (Some "1111111111") None;
       Sample.a_create "Ada Twin" (Some "1111111111") None]
      Sample.accountant1 (Sample.session_of [])
    = (Return (successes, failures), s') ∧
    commits s' = 0 + length successes + 1.
Proof.
  apply (bulk_create_commit_count 500%Z Sample.pg_text
           [Sample.a_create "Ada One" (Some "1111111111") None;
            Sample.a_create "Ada Twin" (Some "1111111111") None]
           Sample.accountant1 (Sample.session_of [])).
  repeat constructor.
Defined.

(** ** update *)

(** What a returning [update] did: it found a row whose object was built
    in this session, stamped and rewrote it, committed, and then staged
    the audit entry. *)
Lemma update_returns utcnow vt i ud u s row s' :
  update utcnow vt i ud u s = (Return row, s') →
  ∃ t value entry,
    find (fun tp => bool_decide (id tp = i)) (taxpayers (working s)) = Some t ∧
    instance_metadata s !! i = Some value ∧
    row = stamp utcnow u (setattr_all ud t) ∧
    durable s' = set_taxpayers
                   (map (fun r => if bool_decide (id r = id row) then row else r))
                   (working s) ∧
    working s' = set_audit_logs (fun l => l ++ [entry]) (durable s') ∧
    action entry = "update" ∧ entity_id entry = id row ∧
    commits s' = S (commits s).
Proof.
  unfold update, get_by_id. unfold_monad.
  destruct (find _ _) as [t |] eqn:Hfind; [| discriminate].
  pose proof (find_id_spec _ _ _ Hfind) as Hid.
  rewrite check_permissions_table.
  destruct (_ : Outcome unit * Session) as [[[] | e] s1] eqn:Hperm;
    [| discriminate].
  assert (s1 = s) as ->.
  { destruct (role u); try case_bool_decide; congruence. }
  unfold metadata_attribute. unfold_monad. rewrite Hid.
  destruct (instance_metadata s !! i) as [value |] eqn:Hattr; [| discriminate].
  unfold merge_metadata, setattr_metadata, set_metadata_attribute,
    flush_taxpayer, db_commit, db_rollback, db_refresh, log_action,
    not_serializable, uuid4.
  unfold_monad. intros H.
  exists t, value.
  repeat (case_match; simplify_eq; simpl in * );
    eexists; repeat split; reflexivity.
Qed.

Lemma setattr_all_keeps (ud : TaxpayerUpdate) (t : Taxpayer) :
  id (setattr_all ud t) = id t ∧
  tin (base (setattr_all ud t)) = tin (base t) ∧
  bvn (base (setattr_all ud t)) = bvn (base t) ∧
  nin (base (setattr_all ud t)) = nin (base t) ∧
  tax_type (base (setattr_all ud t)) = tax_type (base t) ∧
  employer_id (setattr_all ud t) = employer_id t ∧
  is_verified (setattr_all ud t) = is_verified t ∧
  verification_date (setattr_all ud t) = verification_date t ∧
  created_by (setattr_all ud t) = created_by t ∧
  created_at (setattr_all ud t) = created_at t.
Proof. repeat split; reflexivity. Qed.

(** X14: [update] returns only for a taxpayer whose object was built in
    the session of the call.  Then, whatever the patch holds, it keeps the
    identifier, the tax-id, the BVN, the NIN, the tax type, the employer
    reference, the verification flag and date and the creation stamp of
    the row it found; it stamps the actor and the time of the request as
    the last edit. *)
Theorem update_keeps_identity (utcnow : datetime)
    (violation_text : Violation → string) (taxpayer_id : UUID)
    (update_data : TaxpayerUpdate) (current_user : User) (s s' : Session)
    (row : Taxpayer) :
  update utcnow violation_text taxpayer_id update_data current_user s
    = (Return row, s') →
  ∃ taxpayer,
    get_by_id taxpayer_id s = (Return (Some taxpayer), s) ∧
    instance_metadata s !! taxpayer_id ≠ None ∧
    id row = taxpayer_id ∧
    tin (base row) = tin (base taxpayer) ∧
    bvn (base row) = bvn (base taxpayer) ∧
    nin (base row) = nin (base taxpayer) ∧
    tax_type (base row) = tax_type (base taxpayer) ∧
    employer_id row = employer_id taxpayer ∧
    is_verified row = is_verified taxpayer ∧
    verification_date row = verification_date taxpayer ∧
    created_by row = created_by taxpayer ∧
    created_at row = created_at taxpayer ∧
    updated_by row = Some (user_id current_user) ∧
    updated_at row = Some utcnow.
Proof.
  intros H. apply update_returns in H.
  destruct H as (t & value & entry & Hfind & Hattr & -> & _).
  pose proof (find_id_spec _ _ _ Hfind) as Hid.
  destruct (setattr_all_keeps update_data t)
    as (H1 & H2 & H3 & H4 & H5 & H6 & H7 & H8 & H9 & H10).
  exists t. unfold get_by_id. unfold_monad. rewrite Hfind.
  split; [reflexivity |]. split; [congruence |].
  unfold stamp. cbn [id base employer_id is_verified
    verification_date created_by created_at updated_by updated_at].
  split; [congruence |].
  repeat (split; [assumption |]). split; reflexivity.
Qed.

Lemma update_keeps_identity_witness :
  ∃ row s',
    update 600%Z Sample.pg_text 1000%N Sample.rename_patch Sample.admin
      Sample.after_create = (Return row, s') ∧
    full_name (base row) = "Ada Renamed" ∧
    tin (base row) = Some "1111111111" ∧
    updated_by row = Some 10%N.
Proof.
  eexists _, _. split; [vm_compute; reflexivity |]. split; [reflexivity |].
  destruct (update_keeps_identity 600%Z Sample.pg_text 1000%N
              Sample.rename_patch Sample.admin
              Sample.after_create _ _ eq_refl)
    as (t & Hget & _ & _ & Htin & _ & _ & _ & _ & _ & _ & _ & _ & Hby & _).
  injection Hget as <-. exact (conj Htin Hby).
Defined.

(** X15: when [update] returns, which it does only for a taxpayer whose
    object was built in the session of the call, it has committed the
    rewritten row before it staged the audit entry: the row is durable,
    the committed audit log is the one from before the call, and the entry
    ["update"] is only in the open transaction. *)
Theorem update_audit_after_commit (utcnow : datetime)
    (violation_text : Violation → string) (taxpayer_id : UUID)
    (update_data : TaxpayerUpdate) (current_user : User) (s s' : Session)
    (row : Taxpayer) :
  update utcnow violation_text taxpayer_id update_data current_user s
    = (Return row, s') →
  instance_metadata s !! taxpayer_id ≠ None ∧
  commits s' = S (commits s) ∧
  In row (taxpayers (durable s')) ∧
  audit_logs (durable s') = audit_logs (working s) ∧
  (∃ entry, audit_logs (working s') = audit_logs (working s) ++ [entry] ∧
            action entry = "update" ∧ entity_id entry = id row).
Proof.
  intros H. apply update_returns in H.
  destruct H as (t & value & entry & Hfind & Hattr & Hrow & Hd & Hw & Ha & He & Hc).
  split; [congruence |].
  split; [exact Hc |]. split; [| split].
  - rewrite Hd. simpl. apply in_map_iff.
    apply find_some in Hfind. destruct Hfind as [Hin Hid].
    exists t. split; [| exact Hin].
    rewrite bool_decide_eq_true_2; [reflexivity |].
    rewrite Hrow. reflexivity.
  - rewrite Hd. reflexivity.
  - exists entry. rewrite Hw, Hd. simpl. auto.
Qed.

Lemma update_audit_after_commit_witness :
  ∃ row s',
    update 600%Z Sample.pg_text 1000%N Sample.rename_patch Sample.admin
      Sample.after_create = (Return row, s') ∧
    commits s' = 2 ∧
    audit_logs (durable s') = audit_logs (working Sample.after_create).
Proof.
  eexists _, _. split; [vm_compute; reflexivity |].
  destruct (update_audit_after_commit 600%Z Sample.pg_text 1000%N
              Sample.rename_patch Sample.admin
              Sample.after_create _ _ eq_refl)
    as (_ & Hc & _ & Ha & _).
  vm_compute in Hc, Ha. vm_compute. exact (conj Hc Ha).
Defined.

(** X16: on a taxpayer whose object was built in the session of the
    call, a patch that sets the name or the region to null is refused when
    the row is flushed: [update] rolls the transaction back and fails with
    BadRequest, with the message of the engine, without a commit. *)
Theorem update_null_required_field (utcnow : datetime)
    (violation_text : Violation → string) (taxpayer_id : UUID)
    (update_data : TaxpayerUpdate) (current_user : User) (s : Session)
    (taxpayer : Taxpayer) (value : option (gmap string Json)) :
  find (fun tp => bool_decide (id tp = taxpayer_id)) (taxpayers (working s))
    = Some taxpayer →
  _check_permissions taxpayer current_user "update" s = (Return tt, s) →
  instance_metadata s !! taxpayer_id = Some value →
  upd_full_name update_data = Some None ∨ upd_state update_data = Some None →
  upd_metadata update_data = None →
  update utcnow violation_text taxpayer_id update_data current_user s
  = (Raise (BadRequestException
              ("Error updating taxpayer: "
               ++ violation_text NotNullViolation)),
     rolled_back s).
Proof.
  intros Hfind Hperm Hattr Hnull Hmeta.
  pose proof (find_id_spec _ _ _ Hfind) as Hid.
  assert (Hn : null_entry update_data = true).
  { unfold null_entry. destruct Hnull as [-> | ->]; [reflexivity |].
    destruct (upd_full_name update_data) as [[?|]|]; reflexivity. }
  unfold update, get_by_id, metadata_attribute. unfold_monad.
  rewrite Hfind, Hperm, Hid, Hattr.
  unfold merge_metadata, setattr_metadata. rewrite Hmeta. unfold_monad.
  rewrite Hmeta, Hn. unfold db_rollback. unfold_monad. reflexivity.
Qed.

Lemma update_null_required_field_witness :
  update 600%Z Sample.pg_text 1000%N Sample.null_name_patch Sample.admin
    Sample.after_create
  = (Raise (BadRequestException
              "Error updating taxpayer: null value in column full_name violates not-null constraint"),
     rolled_back Sample.after_create).
Proof.
  apply (update_null_required_field 600%Z Sample.pg_text 1000%N
           Sample.null_name_patch Sample.admin Sample.after_create
           (new_taxpayer 500%Z
              (Sample.a_create "Ada One" (Some "1111111111") None)
              Sample.admin None 1000%N)
           (Some ∅));
    [reflexivity | reflexivity | reflexivity | left; reflexivity | reflexivity].
Defined.

(** ** verify *)





(** ** Routes *)

Lemma require_role_gate (required_roles : list string) (caller : User)
    (s : Session) :
  Routes.require_role required_roles caller s =
    if str_in (role_value (role caller)) required_roles
    then (Return caller, s)
    else (Raise (ForbiddenException "Insufficient permissions"), s).
Proof.
  unfold Routes.require_role, AuthService.require_role. unfold_monad.
  destruct (str_in _ _); reflexivity.
Qed.

(** X18: a caller of role ORGANIZATION is stopped by the role
    dependency of every writing route, and an EMPLOYER by the one of the
    delete, verify and bulk routes: the request fails with Forbidden
    ["Insufficient permissions"] before the service is called, whatever
    the input, and the session is only closed. *)
Theorem writing_routes_role_gate (utcnow : datetime) (today : date)
    (violation_text : Violation → string) (Response : Type)
    (model_validate : Taxpayer → option Response)
    (caller : User) (s : Session)
    (taxpayer_data : TaxpayerCreate) (taxpayer_id : UUID)
    (update_data : TaxpayerUpdate) (soft_delete : bool)
    (bulk_data : list TaxpayerCreate) :
  let refused := ForbiddenException "Insufficient permissions" in
  (role caller = ORGANIZATION →
     Routes.create_taxpayer utcnow violation_text Response model_validate
       taxpayer_data caller s = (Raise refused, session_close s) ∧
     Routes.update_taxpayer utcnow violation_text Response model_validate
       taxpayer_id update_data caller s
       = (Raise refused, session_close s)) ∧
  (role caller = ORGANIZATION ∨ role caller = EMPLOYER →
     Routes.delete_taxpayer utcnow taxpayer_id soft_delete caller s
       = (Raise refused, session_close s) ∧
     Routes.verify_taxpayer utcnow today Response model_validate
       taxpayer_id caller s = (Raise refused, session_close s) ∧
     Routes.bulk_create_taxpayers utcnow violation_text Response
       model_validate bulk_data caller s
       = (Raise refused, session_close s)).
Proof.
  simpl. split.
  - intros Hr. unfold Routes.create_taxpayer, Routes.update_taxpayer.
    unfold with_db, bind. rewrite !require_role_gate, Hr. simpl. auto.
  - intros Hr. unfold Routes.delete_taxpayer, Routes.verify_taxpayer,
      Routes.bulk_create_taxpayers.
    unfold with_db, bind. rewrite !require_role_gate.
    destruct Hr as [-> | ->]; simpl; auto.
Qed.

Lemma writing_routes_role_gate_witness :
  Routes.delete_taxpayer 500%Z 101%N false Sample.employer1
    (Sample.session_of [Sample.of_org1])
  = (Raise (ForbiddenException "Insufficient permissions"),
     session_close (Sample.session_of [Sample.of_org1])).
Proof.
  apply (writing_routes_role_gate 500%Z 20%Z Sample.pg_text Taxpayer Some
           Sample.employer1 (Sample.session_of [Sample.of_org1])
           (Sample.a_create "Ada One" None None) 101%N Sample.rename_patch
           false []).
  right. reflexivity.
Defined.

(** X19: [search_by_tin] answers NotFound when no taxpayer has the
    tax-id.  On a taxpayer it finds, an ACCOUNTANT or EMPLOYER of another
    organization is refused with status 403; every other caller, a user of
    role ORGANIZATION included, gets the response built from the record. *)
Theorem search_by_tin_decision (Response : Type)
    (model_validate : Taxpayer → option Response) (t : string)
    (current_user : User) (s : Session) :
  Routes.search_by_tin Response model_validate t current_user s =
    (match find (fun tp => bool_decide (tin (base tp) = Some t))
                (taxpayers (working s)) with
     | None => Raise (NotFoundException ("No taxpayer found with TIN " ++ t))
     | Some taxpayer =>
         if match role current_user with
            | ACCOUNTANT | EMPLOYER =>
                negb (bool_decide
                        (employer_id taxpayer = organization_id current_user))
            | ADMIN | ORGANIZATION => false
            end
         then Raise (HTTPException 403
                       "You don't have permission to view this taxpayer")
         else match model_validate taxpayer with
              | Some response => Return response
              | None => Raise (InternalError "Internal Server Error")
              end
     end, session_close s).
Proof.
  unfold Routes.search_by_tin, get_by_tin. unfold_monad.
  destruct (find _ _) as [taxpayer |]; [| reflexivity].
  destruct (role current_user); simpl; try case_bool_decide; simpl;
    destruct (model_validate taxpayer); reflexivity.
Qed.

(** ** Tax types *)

(** X20: every taxpayer is an individual or a company and never both:
    the two computed flags split the five tax types.  The validators of
    the create schema follow the split: a business name is demanded
    exactly for the company types, an employment status exactly for PAYE,
    so no input is asked for both and PIT is asked for neither; when the
    tax type itself is missing from the validated values, nothing is
    demanded. *)
Theorem tax_type_split (taxpayer : Taxpayer) (name employment : option string) :
  let ty := tax_type (base taxpayer) in
  is_company taxpayer = negb (is_individual taxpayer) ∧
  ((∃ msg, validate_business_name name (Some ty) = ValueError msg)
   ↔ is_company taxpayer = true ∧ truthy_str name = false) ∧
  ((∃ msg, validate_employment_for_paye employment (Some ty) = ValueError msg)
   ↔ ty = PAYE ∧ truthy_str employment = false) ∧
  (validate_business_name name (Some ty) = Valid name
   ∨ validate_employment_for_paye employment (Some ty) = Valid employment) ∧
  validate_business_name name None = Valid name ∧
  validate_employment_for_paye employment None = Valid employment.
Proof.
  unfold is_company, is_individual, validate_business_name,
    validate_employment_for_paye.
  destruct (tax_type (base taxpayer)); simpl;
    destruct (truthy_str name), (truthy_str employment); simpl;
    repeat split; auto; intros;
    repeat match goal with
           | H : ∃ _, _ |- _ => destruct H as [? ?]
           | H : _ ∧ _ |- _ => destruct H as [? ?]
           end;
    first [congruence | eexists; reflexivity].
Qed.

(** ** Statistics *)

Lemma filter_filter_le {A} (p q : A → bool) (l : list A) :
  (length (List.filter p (List.filter q l)) ≤ length (List.filter p l))%nat.
Proof.
  induction l as [| a l IH]; simpl; [lia |].
  destruct (q a), (p a) eqn:Hp; simpl; rewrite ?Hp; simpl; lia.
Qed.

(** X21: the statistics read only, whatever the engine answers to the
    grouped selects.  The total counts rows that are not deleted, so it is
    at most their number, and it is their number for an ADMIN who names no
    organization; the verified count is at most the total; the rate is the
    integer zero exactly when nothing is counted and the floating-point
    percentage otherwise; the counts by region are always empty. *)
Theorem get_stats_consistent (float : Type) (percentage : nat → nat → float)
    (count_by_tax_type : list Taxpayer → list Taxpayer → list (TaxType * nat))
    (count_by_status :
       list Taxpayer → list Taxpayer → list (option TaxpayerStatus * nat))
    (current_user : User) (for_organization_id : option UUID) (s : Session) :
  ∃ stats,
    get_stats float percentage count_by_tax_type count_by_status current_user
      for_organization_id s = (Return stats, s) ∧
    (stats_verified stats ≤ stats_total stats)%nat ∧
    (stats_total stats
     ≤ length (List.filter not_deleted (taxpayers (working s))))%nat ∧
    (role current_user = ADMIN → for_organization_id = None →
     stats_total stats = length (List.filter not_deleted (taxpayers (working s)))) ∧
    (stats_verification_rate stats = IntNumber 0 ↔ stats_total stats = 0) ∧
    ((0 < stats_total stats)%nat →
     stats_verification_rate stats
     = FloatNumber (percentage (stats_verified stats) (stats_total stats))) ∧
    stats_by_state stats = [].
Proof.
  unfold get_stats. unfold_monad. eexists. split; [reflexivity |]. simpl.
  split; [unfold where_ at 1; apply filter_length_le |].
  split; [| split; [| split; [| split; [| reflexivity]]]].
  - unfold where_, select_taxpayer.
    repeat match goal with
           | |- context [if ?b then _ else _] => destruct b
           end;
      try apply filter_filter_le; try reflexivity;
      (etransitivity; [apply filter_filter_le |]);
      try apply filter_filter_le; reflexivity.
  - intros -> ->. reflexivity.
  - match goal with
    | |- context [(0 <? ?n)%nat] => destruct (Nat.ltb_spec 0 n)
    end; split; intros Hx; try discriminate; try lia; reflexivity.
  - intros Hpos. apply Nat.ltb_lt in Hpos. rewrite Hpos. reflexivity.
Qed.

(** X22: the scope of the statistics.  For an ACCOUNTANT or an EMPLOYER
    the total, the verified count and the rate come from the rows of the
    caller's organization alone: two stores that agree on these rows give
    the same three values.  A user of role ORGANIZATION gets the statistics
    an ADMIN gets, over the taxpayers of every organization. *)
Theorem get_stats_scope (float : Type) (percentage : nat → nat → float)
    (count_by_tax_type : list Taxpayer → list Taxpayer → list (TaxType * nat))
    (count_by_status :
       list Taxpayer → list Taxpayer → list (option TaxpayerStatus * nat))
    (current_user : User) (for_organization_id : option UUID) :
  let stats_of s :=
    get_stats float percentage count_by_tax_type count_by_status current_user
      for_organization_id s in
  (role current_user = ACCOUNTANT ∨ role current_user = EMPLOYER →
   ∀ s1 s2,
     List.filter (fun tp => bool_decide
                    (employer_id tp = organization_id current_user))
                 (taxpayers (working s1))
     = List.filter (fun tp => bool_decide
                      (employer_id tp = organization_id current_user))
                   (taxpayers (working s2)) →
     ∃ stats1 stats2,
       stats_of s1 = (Return stats1, s1) ∧ stats_of s2 = (Return stats2, s2) ∧
       stats_total stats1 = stats_total stats2 ∧
       stats_verified stats1 = stats_verified stats2 ∧
       stats_verification_rate stats1 = stats_verification_rate stats2) ∧
  (role current_user = ORGANIZATION →
   ∀ admin s, role admin = ADMIN →
     stats_of s
     = get_stats float percentage count_by_tax_type count_by_status admin
         for_organization_id s).
Proof.
  simpl. split.
  - intros Hrole s1 s2 Hown. unfold get_stats. unfold_monad.
    assert (Hadmin :
              negb (String.eqb (role_value (role current_user)) "ADMIN") = true)
      by (destruct Hrole as [-> | ->]; reflexivity).
    assert (Hin : str_in (role_value (role current_user))
                    ["ACCOUNTANT"; "EMPLOYER"] = true)
      by (destruct Hrole as [-> | ->]; reflexivity).
    rewrite Hadmin, Hin. unfold where_, select_taxpayer.
    eexists _, _. split; [reflexivity |]. split; [reflexivity |]. simpl.
    destruct (truthy_opt for_organization_id); rewrite Hown; auto.
  - intros Hrole admin s Hadmin. unfold get_stats.
    rewrite Hrole, Hadmin. reflexivity.
Qed.

Lemma get_stats_scope_witness :
  ∃ stats1 stats2,
    get_stats nat Nat.mul (fun _ _ => []) (fun _ _ => []) Sample.accountant1
      None (Sample.session_of [Sample.of_org1; Sample.of_org2])
    = (Return stats1, Sample.session_of [Sample.of_org1; Sample.of_org2]) ∧
    get_stats nat Nat.mul (fun _ _ => []) (fun _ _ => []) Sample.accountant1
      None (Sample.session_of [Sample.of_org1])
    = (Return stats2, Sample.session_of [Sample.of_org1]) ∧
    stats_total stats1 = stats_total stats2 ∧
    stats_verified stats1 = stats_verified stats2 ∧
    stats_verification_rate stats1 = stats_verification_rate stats2.
Proof.
  apply (get_stats_scope nat Nat.mul (fun _ _ => []) (fun _ _ => [])
           Sample.accountant1 None);
    [left; reflexivity | reflexivity].
Defined.

(** ** Pagination *)

Lemma validate_all_length {Response} (model_validate : Taxpayer → option Response)
    (rows : list Taxpayer) (items : list Response) :
  validate_all model_validate rows = Some items → length items = length rows.
Proof.
  revert items. induction rows as [| a rows IH]; simpl; intros items H.
  - injection H as <-. reflexivity.
  - destruct (model_validate a); [| discriminate].
    destruct (validate_all model_validate rows); [| discriminate].
    injection H as <-. simpl. f_equal. auto.
Qed.

(** What a returning [get_taxpayers_response] holds. *)
Lemma get_taxpayers_response_returns ilike midnight before Response
    (model_validate : Taxpayer → option Response) filter_data page size
    current_user s response s' :
  get_taxpayers_response ilike midnight before Response model_validate filter_data
    page size current_user s = (Return response, s') →
  let selection :=
    _apply_filters ilike midnight before select_taxpayer filter_data current_user
      (taxpayers (working s)) in
  s' = session_close s ∧
  resp_total response = length selection ∧
  resp_pages response = (length selection + size - 1) / size ∧
  length (resp_items response)
  = length (firstn size (skipn ((page - 1) * size) selection)).
Proof.
  unfold get_taxpayers_response, get_all. unfold_monad. simpl.
  destruct (validate_all _ _) as [items |] eqn:Hv; [| discriminate].
  intros H. injection H as <- <-. simpl.
  apply validate_all_length in Hv. auto.
Qed.

Lemma ceiling_pages (total size : nat) :
  (0 < size)%nat →
  let pages := (total + size - 1) / size in
  (total ≤ pages * size)%nat ∧
  ((0 < total)%nat → ((pages - 1) * size < total)%nat) ∧
  (total = 0 → pages = 0).
Proof.
  intros Hsize. simpl.
  pose proof (Nat.div_mod_eq (total + size - 1) size) as Hdiv.
  pose proof (Nat.mod_upper_bound (total + size - 1) size ltac:(lia)) as Hmod.
  split; [nia |]. split; [intros Hpos; nia |].
  intros ->. apply Nat.div_small. lia.
Qed.

(** X23: the number of pages of the list response is the ceiling of
    total over size: the pages hold the total, and without the last page
    they would not; there is no page when nothing is listed, and a page
    never holds more items than its size.  The request only closes the
    session. *)
Theorem get_taxpayers_pages (ilike : string → string → bool)
    (midnight : date → datetime) (before : Taxpayer → Taxpayer → bool)
    (Response : Type)
    (model_validate : Taxpayer → option Response)
    (filter_data : TaxpayerFilter)
    (page size : nat) (current_user : User) (s s' : Session)
    (response : TaxpayerListResponse Response) :
  (0 < size)%nat →
  get_taxpayers_response ilike midnight before Response model_validate filter_data
    page size current_user s = (Return response, s') →
  s' = session_close s ∧
  (resp_total response ≤ resp_pages response * size)%nat ∧
  ((0 < resp_total response)%nat →
     ((resp_pages response - 1) * size < resp_total response)%nat) ∧
  (resp_total response = 0 → resp_pages response = 0) ∧
  (length (resp_items response) ≤ size)%nat.
Proof.
  intros Hsize Hr. apply get_taxpayers_response_returns in Hr.
  destruct Hr as (-> & -> & -> & ->). split; [reflexivity |].
  match goal with
  | |- context [length ?l + size - 1] =>
      destruct (ceiling_pages (length l) size Hsize) as (H1 & H2 & H3)
  end.
  repeat (split; [assumption |]).
  rewrite length_firstn. lia.
Qed.

Lemma get_taxpayers_pages_witness :
  ∃ response s',
    get_taxpayers_response Sample.no_ilike Sample.day_start
      Sample.table_order Taxpayer Some
      Sample.no_filter 1 1 Sample.admin
      (Sample.session_of [Sample.of_org1; Sample.of_org2])
    = (Return response, s') ∧
    resp_total response = 2 ∧ resp_pages response = 2 ∧
    (resp_total response ≤ resp_pages response * 1)%nat.
Proof.
  eexists _, _. split; [reflexivity |]. split; [reflexivity |].
  split; [reflexivity |].
  destruct (get_taxpayers_pages Sample.no_ilike Sample.day_start
              Sample.table_order Taxpayer Some
              Sample.no_filter 1 1 Sample.admin
              (Sample.session_of [Sample.of_org1; Sample.of_org2]) _ _
              ltac:(lia) eq_refl) as (_ & Hle & _).
  exact Hle.
Defined.

(** ** Tokens *)

(** X25: [login] gives one answer, Unauthorized ["Incorrect email or
    password"], for an unknown email and for a wrong password, and leaves
    the session as it was.  When it returns, the user is a stored user
    with the email of the request whose hash matches the password and
    whose account is active, and the token is the one issued for the
    claims of that user, of type bearer. *)
Theorem login_outcomes (verify_password : string → string → bool)
    (create_access_token : gmap string Json → string)
    (login_data : LoginRequest) (s : Session) :
  let by_email :=
    find (fun u => String.eqb (user_email u) (login_email login_data))
         (users (working s)) in
  (by_email = None
   ∨ (∃ user, by_email = Some user ∧
        verify_password (login_password login_data) (password_hash user)
        = false) →
   login verify_password create_access_token login_data s
   = (Raise (UnauthorizedException "Incorrect email or password"), s)) ∧
  (∀ token s',
     login verify_password create_access_token login_data s
     = (Return token, s') →
     s' = s ∧
     by_email = Some (token_user token) ∧
     verify_password (login_password login_data)
       (password_hash (token_user token)) = true ∧
     is_active (token_user token) = true ∧
     token_type token = "bearer" ∧
     access_token token
     = create_access_token (token_claims (token_user token))).
Proof.
  simpl. unfold login, AuthService.authenticate_user. unfold_monad. split.
  - intros [-> | (user & -> & ->)]; reflexivity.
  - intros token s'. destruct (find _ _) as [user |]; [| discriminate].
    destruct (verify_password _ _) eqn:Hpw; simpl; [| discriminate].
    destruct (is_active user) eqn:Hactive; simpl; [| discriminate].
    intros H. injection H as <- <-. simpl. repeat split; assumption.
Qed.

Lemma login_outcomes_witness :
  login Sample.plain_verify Sample.one_token
    {| login_email := "nobody@x.ng"; login_password := "secret" |}
    (Sample.session_of [])
  = (Raise (UnauthorizedException "Incorrect email or password"),
     Sample.session_of []).
Proof.
  apply (login_outcomes Sample.plain_verify Sample.one_token
           {| login_email := "nobody@x.ng"; login_password := "secret" |}
           (Sample.session_of [])).
  left. reflexivity.
Defined.

(** X26: [get_current_user] returns only a stored, active user whose
    identifier is the one the subject of the token parses to, and it
    leaves the session as it was.  A token that does not decode, and a
    payload without subject or with a null one, give Unauthorized ["Could
    not validate credentials"]. *)
Theorem get_current_user_sound
    (decode_token : string → option (gmap string Json))
    (parse_uuid : string → option UUID) (token : string) (s : Session) :
  (∀ user s',
     get_current_user decode_token parse_uuid token s = (Return user, s') →
     s' = s ∧ In user (users (working s)) ∧ is_active user = true ∧
     ∃ payload text,
       decode_token token = Some payload ∧
       payload !! "sub" = Some (JStr text) ∧
       parse_uuid text = Some (user_id user)) ∧
  (decode_token token = None
   ∨ (∃ payload, decode_token token = Some payload ∧
        (payload !! "sub" = None ∨ payload !! "sub" = Some JNull)) →
   get_current_user decode_token parse_uuid token s
   = (Raise (UnauthorizedException "Could not validate credentials"), s)).
Proof.
  unfold get_current_user, token_data. unfold_monad. split.
  - intros user s'.
    destruct (decode_token token) as [payload |] eqn:Hdec; [| discriminate].
    destruct (payload !! "sub") as [[| | | text | |] |] eqn:Hsub;
      try discriminate.
    destruct (optional_str _ && optional_str _); [| discriminate].
    destruct (parse_uuid text) as [i |] eqn:Hparse; [| discriminate].
    destruct (find _ _) as [u |] eqn:Hfind; [| discriminate].
    destruct (is_active u) eqn:Hactive; simpl; [| discriminate].
    intros H. injection H as <- <-.
    apply find_some in Hfind. destruct Hfind as [Hin Hid].
    apply bool_decide_eq_true in Hid.
    split; [reflexivity |]. split; [exact Hin |]. split; [exact Hactive |].
    exists payload, text. rewrite Hid. auto.
  - intros [-> | (payload & -> & [-> | ->])]; reflexivity.
Qed.

Lemma get_current_user_sound_witness :
  get_current_user Sample.one_payload Sample.one_uuid "forged"
    (Sample.session_of [])
  = (Raise (UnauthorizedException "Could not validate credentials"),
     Sample.session_of []).
Proof.
  apply (get_current_user_sound Sample.one_payload Sample.one_uuid "forged"
           (Sample.session_of [])).
  left. reflexivity.
Defined.

Lemma login_returns_active verify_password create_access_token login_data
    s token s' :
  login verify_password create_access_token login_data s = (Return token, s') →
  is_active (token_user token) = true.
Proof.
  unfold login, AuthService.authenticate_user. unfold_monad.
  destruct (find _ _) as [user |]; [| discriminate].
  destruct (verify_password _ _); simpl; [| discriminate].
  destruct (is_active user) eqn:Hactive; simpl; [| discriminate].
  intros H. injection H as <- <-. exact Hactive.
Qed.

(** X27: the token [login] issues resolves to the user who logged in.
    When the codec gives back, for the issued token, a payload that holds
    the claims of the token, the text of an identifier parses back to the
    identifier, and the identifier is the key of the user in the table,
    [get_current_user] on the access token returns the user of the
    login. *)
Theorem login_token_resolves (verify_password : string → string → bool)
    (create_access_token : gmap string Json → string)
    (decode_token : string → option (gmap string Json))
    (parse_uuid : string → option UUID)
    (login_data : LoginRequest) (s s' : Session) (token : Token)
    (payload : gmap string Json) :
  login verify_password create_access_token login_data s = (Return token, s') →
  decode_token (access_token token) = Some payload →
  token_claims (token_user token) ⊆ payload →
  parse_uuid (str_uuid (user_id (token_user token)))
    = Some (user_id (token_user token)) →
  find (fun u => bool_decide (user_id u = user_id (token_user token)))
       (users (working s')) = Some (token_user token) →
  get_current_user decode_token parse_uuid (access_token token) s'
  = (Return (token_user token), s').
Proof.
  intros Hlogin Hdecode Hclaims Hparse Hkey.
  pose proof (login_returns_active _ _ _ _ _ _ Hlogin) as Hactive.
  assert (Hsub : payload !! "sub"
                 = Some (JStr (str_uuid (user_id (token_user token))))).
  { eapply lookup_weaken; [| exact Hclaims]. reflexivity. }
  assert (Hemail : payload !! "email"
                   = Some (JStr (user_email (token_user token)))).
  { eapply lookup_weaken; [| exact Hclaims]. reflexivity. }
  assert (Hrole : payload !! "role"
                  = Some (JStr (role_value (role (token_user token))))).
  { eapply lookup_weaken; [| exact Hclaims]. reflexivity. }
  unfold get_current_user, token_data. unfold_monad.
  rewrite Hdecode, Hsub, Hemail, Hrole. simpl. rewrite Hparse, Hkey, Hactive.
  reflexivity.
Qed.

Lemma login_token_resolves_witness :
  ∃ token,
    login Sample.plain_verify Sample.one_token
      {| login_email := "acc1@x.ng"; login_password := "secret" |}
      (Sample.session_of []) = (Return token, Sample.session_of []) ∧
    get_current_user Sample.one_payload Sample.one_uuid (access_token token)
      (Sample.session_of [])
    = (Return Sample.accountant1, Sample.session_of []).
Proof.
  eexists. split; [reflexivity |].
  apply (login_token_resolves Sample.plain_verify Sample.one_token
           Sample.one_payload Sample.one_uuid
           {| login_email := "acc1@x.ng"; login_password := "secret" |}
           (Sample.session_of []) (Sample.session_of [])
           {| access_token := "token-11"; token_type := "bearer";
              token_user := Sample.accountant1 |}
           (<["exp" := JNum 99]> (token_claims Sample.accountant1)));
    [reflexivity | reflexivity | | reflexivity | reflexivity].
  apply insert_subseteq. reflexivity.
Defined.

(** ** Users *)

Lemma find_app_last {A} (p : A → bool) (l : list A) (x : A) :
  find p l = None → p x = true → find p (l ++ [x]) = Some x.
Proof.
  intros Hnone Hp. induction l as [| a l IH]; simpl in *.
  - rewrite Hp. reflexivity.
  - destruct (p a); [discriminate | auto].
Qed.

(** What a returning [UserService.create] did. *)
Lemma user_create_returns get_password_hash vt fk user_data s user s' :
  UserService.create get_password_hash vt fk user_data s = (Return user, s') →
  find (fun u => String.eqb (user_email u) (uc_email user_data))
       (users (working s)) = None ∧
  user = UserService.new_user user_data
           (get_password_hash (uc_password user_data)) (next_uuid s) ∧
  users (working s') = users (working s) ++ [user] ∧
  durable s' = working s' ∧ commits s' = S (commits s).
Proof.
  unfold UserService.create, UserService.get_by_email, UserService.insert_user,
    db_commit, db_rollback, uuid4.
  unfold_monad. simpl. intros H.
  repeat (case_match; simplify_eq; simpl in * ); auto.
Qed.

(** X28: a user who registered can log in.  When [UserService.create]
    returns and the hasher verifies the password against its own hash,
    [authenticate_user] with the email and the password of the registration
    returns the created user; this user has the role the registration asked
    for, whichever it is, is active and is not verified, and is committed. *)
Theorem register_then_authenticate (get_password_hash : string → string)
    (verify_password : string → string → bool)
    (violation_text : Violation → string) (foreign_key_text : string)
    (user_data : UserCreate) (s s' : Session) (user : User) :
  UserService.create get_password_hash violation_text foreign_key_text
    user_data s = (Return user, s') →
  verify_password (uc_password user_data)
    (get_password_hash (uc_password user_data)) = true →
  AuthService.authenticate_user verify_password
    {| login_email := uc_email user_data;
       login_password := uc_password user_data |} s'
  = (Return (Some user), s') ∧
  role user = uc_role user_data ∧
  organization_id user = uc_organization_id user_data ∧
  is_active user = true ∧ user_is_verified user = false ∧
  In user (users (durable s')).
Proof.
  intros Hcreate Hhash. apply user_create_returns in Hcreate.
  destruct Hcreate as (Hnone & -> & Hw & Hd & _).
  split; [| rewrite Hd, Hw; repeat split; try reflexivity;
            apply in_app_iff; right; left; reflexivity].
  unfold AuthService.authenticate_user. unfold_monad. simpl.
  rewrite Hw, (find_app_last _ _ _ Hnone); [| apply String.eqb_refl].
  simpl. rewrite Hhash. reflexivity.
Qed.

Lemma register_then_authenticate_witness :
  ∃ user s',
    UserService.create Sample.plain_hash Sample.pg_text "fk"
      Sample.a_new_user (Sample.session_of []) = (Return user, s') ∧
    AuthService.authenticate_user Sample.plain_verify
      {| login_email := "dayo@x.ng"; login_password := "Secret123" |} s'
    = (Return (Some user), s') ∧
    role user = ADMIN.
Proof.
  eexists _, _. split; [vm_compute; reflexivity |].
  destruct (register_then_authenticate Sample.plain_hash Sample.plain_verify
              Sample.pg_text "fk" Sample.a_new_user (Sample.session_of [])
              _ _ eq_refl eq_refl) as (Hauth & Hrole & _).
  exact (conj Hauth Hrole).
Defined.

(** X29: a user who is not an ADMIN cannot touch another user:
    [UserService.update], [change_password] and [delete] on the identifier
    of someone else fail with Unauthorized, before the email, the password
    or the row is looked at, and leave the session as it was. *)
Theorem user_service_authorization (get_password_hash : string → string)
    (verify_password : string → string → bool)
    (violation_text : Violation → string) (foreign_key_text : string)
    (i : UUID) (current_user user : User) (update_data : UserUpdate)
    (password_data : PasswordChange) (s : Session) :
  find (fun u => bool_decide (user_id u = i)) (users (working s)) = Some user →
  user_id current_user ≠ i →
  role current_user ≠ ADMIN →
  UserService.update violation_text i update_data current_user s
  = (Raise (UnauthorizedException "Not authorized to update this user"), s) ∧
  UserService.change_password get_password_hash verify_password i
    password_data current_user s
  = (Raise (UnauthorizedException
              "Not authorized to change this user's password"), s) ∧
  UserService.delete foreign_key_text i current_user s
  = (Raise (UnauthorizedException "Not authorized to delete this user"), s).
Proof.
  intros Hfind Hother Hrole.
  assert (Hid : user_id user = i).
  { apply find_some in Hfind. destruct Hfind as [_ H].
    apply bool_decide_eq_true in H. exact H. }
  assert (Hcheck : negb (bool_decide (user_id user = user_id current_user))
                   && negb (bool_decide (role current_user = ADMIN)) = true).
  { rewrite !bool_decide_eq_false_2; [reflexivity | exact Hrole | congruence]. }
  unfold UserService.update, UserService.change_password, UserService.delete,
    UserService.get_by_id.
  unfold_monad. rewrite Hfind, Hcheck. auto.
Qed.

Lemma user_service_authorization_witness :
  UserService.delete "fk" 12%N Sample.accountant1 (Sample.session_of [])
  = (Raise (UnauthorizedException "Not authorized to delete this user"),
     Sample.session_of []).
Proof.
  apply (user_service_authorization Sample.plain_hash Sample.plain_verify
           Sample.pg_text "fk" 12%N Sample.accountant1 Sample.employer1
           {| uu_name := None; uu_email := None |}
           {| current_password := "secret"; new_password := "Other123" |}
           (Sample.session_of []));
    [reflexivity | discriminate | discriminate].
Defined.

Lemma find_rewritten (i : UUID) (f : User → User) (rows : list User)
    (user : User) :
  find (fun u => bool_decide (user_id u = i)) rows = Some user →
  user_id (f user) = i →
  find (fun u => bool_decide (user_id u = i))
       (map (fun u => if bool_decide (user_id u = i) then f u else u) rows)
  = Some (f user).
Proof.
  intros Hfind Hid. induction rows as [| a rows IH]; simpl in *; [discriminate |].
  destruct (bool_decide (user_id a = i)) eqn:Ha.
  - injection Hfind as ->. simpl. rewrite bool_decide_eq_true_2; auto.
  - simpl. rewrite Ha. auto.
Qed.

(** X30: [change_password] asks for the current password of the user
    whose password is changed, also when an ADMIN changes it for someone
    else: with a password that does not match the stored hash it fails with
    BadRequest and changes nothing; with the matching one it stores the
    hash of the new password, keeps every other field of the user, and
    commits once. *)
Theorem change_password_checks (get_password_hash : string → string)
    (verify_password : string → string → bool) (i : UUID)
    (password_data : PasswordChange) (current_user user : User) (s : Session) :
  find (fun u => bool_decide (user_id u = i)) (users (working s)) = Some user →
  user_id current_user = i ∨ role current_user = ADMIN →
  (verify_password (current_password password_data) (password_hash user)
     = false →
   UserService.change_password get_password_hash verify_password i
     password_data current_user s
   = (Raise (BadRequestException "Current password is incorrect"), s)) ∧
  (verify_password (current_password password_data) (password_hash user)
     = true →
   ∃ s',
     UserService.change_password get_password_hash verify_password i
       password_data current_user s = (Return tt, s') ∧
     UserService.get_by_id i s'
     = (Return (Some (UserService.set_password_hash
                        (get_password_hash (new_password password_data))
                        user)), s') ∧
     durable s' = working s' ∧ commits s' = S (commits s)).
Proof.
  intros Hfind Hperm.
  assert (Hid : user_id user = i).
  { apply find_some in Hfind. destruct Hfind as [_ H].
    apply bool_decide_eq_true in H. exact H. }
  assert (Hcheck : negb (bool_decide (user_id user = user_id current_user))
                   && negb (bool_decide (role current_user = ADMIN)) = false).
  { destruct Hperm as [Hself | Hadmin].
    - rewrite bool_decide_eq_true_2 by congruence. reflexivity.
    - rewrite (bool_decide_eq_true_2 _ Hadmin). apply andb_false_r. }
  unfold UserService.change_password, UserService.get_by_id.
  unfold_monad. rewrite Hfind, Hcheck. split; intros ->; simpl.
  - reflexivity.
  - unfold db_commit. unfold_monad. eexists. split; [reflexivity |]. simpl.
    split; [| auto]. f_equal. f_equal.
    apply (find_rewritten i
             (UserService.set_password_hash
                (get_password_hash (new_password password_data)))
             _ user Hfind).
    exact Hid.
Qed.

Lemma change_password_checks_witness :
  UserService.change_password Sample.plain_hash Sample.plain_verify 12%N
    {| current_password := "guess"; new_password := "Other123" |}
    Sample.admin (Sample.session_of [])
  = (Raise (BadRequestException "Current password is incorrect"),
     Sample.session_of []).
Proof.
  apply (change_password_checks Sample.plain_hash Sample.plain_verify 12%N
           {| current_password := "guess"; new_password := "Other123" |}
           Sample.admin Sample.employer1 (Sample.session_of []));
    [reflexivity | right; reflexivity | reflexivity].
Defined.
